(** * The Liquid evaluator's runtime values ([evaluator/value.go])

    A shallow embedding of [ValueOf] and of the [Value] implementations
    [wrapperValue], [arrayValue], [mapValue], [stringValue], [structValue]
    and [valueEmbed], over a model of Go's dynamically typed data
    ([interface{}]) and of the part of package [reflect] the file calls.

    Go panics are explicit: every operation returns a [result], either
    [Ok] with its value or [Panic] with what was raised. *)

From Stdlib Require Import ZArith List String Bool Lia Arith.
Import ListNotations.
Local Open Scope string_scope.

(** ** Package [reflect]: kinds and types *)

Module Reflect.

(** [reflect.Kind], in the order of its constants ([Invalid] is 0,
    [Float64] is 14, [UnsafePointer] is 26). *)
Inductive Kind : Set :=
| Invalid | Bool | Int | Int8 | Int16 | Int32 | Int64
| Uint | Uint8 | Uint16 | Uint32 | Uint64 | Uintptr
| Float32 | Float64 | Complex64 | Complex128
| Array | Chan | Func | Interface | Map | Ptr | Slice | String | Struct
| UnsafePointer.

(** The numeric value of a kind, as [rk <= reflect.Float64] compares it. *)
Definition Kind_num (k : Kind) : nat :=
  match k with
  | Invalid => 0 | Bool => 1 | Int => 2 | Int8 => 3 | Int16 => 4
  | Int32 => 5 | Int64 => 6 | Uint => 7 | Uint8 => 8 | Uint16 => 9
  | Uint32 => 10 | Uint64 => 11 | Uintptr => 12 | Float32 => 13
  | Float64 => 14 | Complex64 => 15 | Complex128 => 16 | Array => 17
  | Chan => 18 | Func => 19 | Interface => 20 | Map => 21 | Ptr => 22
  | Slice => 23 | String => 24 | Struct => 25 | UnsafePointer => 26
  end.

Definition Kind_eq_dec (a b : Kind) : {a = b} + {a <> b}.
Proof. decide equality. Defined.

Definition Kind_eqb (a b : Kind) : bool :=
  if Kind_eq_dec a b then true else false.

(** [reflect.StructField], reduced to what the evaluator reads: the
    field's name, whether it is exported ([PkgPath] is empty) and the kind
    of its declared type. *)
Record StructField : Set := mkField {
  sf_Name : string;
  sf_exported : bool;
  sf_Kind : Kind
}.

(** [reflect.Method] of a struct type: an exported method, whether it is
    declared on the pointer receiver, and the arity of its signature
    without the receiver. *)
Record Method : Set := mkMethod {
  m_Name : string;
  m_ptr_receiver : bool;
  m_NumIn : nat;
  m_NumOut : nat
}.

Definition StructField_eq_dec (a b : StructField) : {a = b} + {a <> b}.
Proof. decide equality; auto using Kind_eq_dec, string_dec, bool_dec. Defined.

Definition Method_eq_dec (a b : Method) : {a = b} + {a <> b}.
Proof. decide equality; auto using Nat.eq_dec, string_dec, bool_dec. Defined.

(** [reflect.Type].  [TBasic k] is the predeclared type of a basic kind
    ([bool], [int], ..., [string], [unsafe.Pointer]); [TNamed n u] is a
    defined type [type n u]; a struct type carries its name (empty for a
    struct literal), its fields and its exported methods; an interface
    type lists its method names ([TInterface []] is [interface{}]).
    Func types are told apart by their arities. *)
Inductive Type_ : Set :=
| TBasic (k : Kind)
| TNamed (name : string) (u : Type_)
| TPtr (e : Type_)
| TSlice (e : Type_)
| TArray (n : nat) (e : Type_)
| TMap (k e : Type_)
| TChan (e : Type_)
| TFunc (numIn numOut : nat)
| TStruct (name : string) (fields : list StructField) (methods : list Method)
| TInterface (methods : list string).

Definition Type_eq_dec (a b : Type_) : {a = b} + {a <> b}.
Proof.
  decide equality;
    auto using Kind_eq_dec, string_dec, Nat.eq_dec, list_eq_dec,
               StructField_eq_dec, Method_eq_dec.
Defined.

(** [t1 == t2] on [reflect.Type] values: type identity. *)
Definition Type_eqb (a b : Type_) : bool :=
  if Type_eq_dec a b then true else false.

(** [Type.Kind()]. *)
Fixpoint Type_Kind (t : Type_) : Kind :=
  match t with
  | TBasic k => k
  | TNamed _ u => Type_Kind u
  | TPtr _ => Ptr
  | TSlice _ => Slice
  | TArray _ _ => Array
  | TMap _ _ => Map
  | TChan _ => Chan
  | TFunc _ _ => Func
  | TStruct _ _ _ => Struct
  | TInterface _ => Interface
  end.

(** The underlying type: a defined type's is that of its definition, a
    named struct type's is the struct type literal with its fields,
    which has no name and no methods. *)
Fixpoint underlying (t : Type_) : Type_ :=
  match t with
  | TNamed _ u => underlying u
  | TStruct _ fs _ => TStruct "" fs []
  | _ => t
  end.

(** Whether the type has a name; predeclared types have one. *)
Definition hasName (t : Type_) : bool :=
  match t with
  | TBasic _ | TNamed _ _ => true
  | TStruct name _ _ => negb (name =? "")
  | _ => false
  end.

(** The method set [Type.MethodByName] searches: a struct type has the
    methods declared on the value receiver, a pointer to a struct type
    has all of them; the types of the other kinds in this model declare
    no methods. *)
Definition method_set (t : Type_) : list Method :=
  match t with
  | TStruct _ _ ms => filter (fun m => negb (m_ptr_receiver m)) ms
  | TPtr (TStruct _ _ ms) => ms
  | _ => []
  end.

(** [rt.MethodByName(name)]: the method and whether it was found. *)
Definition Type_MethodByName (t : Type_) (name : string) : option Method :=
  find (fun m => m_Name m =? name) (method_set t).

(** The fields of a struct type, through defined types. *)
Definition struct_fields (t : Type_) : option (list StructField) :=
  match underlying t with
  | TStruct _ fs _ => Some fs
  | _ => None
  end.

End Reflect.

Import Reflect(Kind, Type_, StructField, Method).

(** ** Host data: what an [interface{}] can hold

    A datum carries its dynamic type: [name] is the name of a defined type
    ([type Celsius float64]), [None] for the predeclared or literal type.
    Integers are their value, floats their IEEE-754 bit pattern, strings
    their bytes.  A nil slice, map, pointer or func has no contents.  A
    struct carries its type's name, fields (declaration and value) and
    exported methods.  A pointer that is not nil carries its address and
    what it points to, a chan its address ([None] for a nil chan); two
    pointers are the same pointer when their addresses are equal.
    Pointers are finite: data that reaches itself through pointers is
    outside the model.  The evaluator's own [Value]s are host data too
    ([HValue]); the implementations of [Value] are those of value.go,
    and pointers to them are outside the model. *)

Inductive IntKind : Set :=
| KInt | KInt8 | KInt16 | KInt32 | KInt64
| KUint | KUint8 | KUint16 | KUint32 | KUint64 | KUintptr.

Inductive FloatKind : Set := KFloat32 | KFloat64.

Inductive ComplexKind : Set := KComplex64 | KComplex128.

Definition IntKind_Kind (k : IntKind) : Kind :=
  match k with
  | KInt => Reflect.Int | KInt8 => Reflect.Int8 | KInt16 => Reflect.Int16
  | KInt32 => Reflect.Int32 | KInt64 => Reflect.Int64
  | KUint => Reflect.Uint | KUint8 => Reflect.Uint8
  | KUint16 => Reflect.Uint16 | KUint32 => Reflect.Uint32
  | KUint64 => Reflect.Uint64 | KUintptr => Reflect.Uintptr
  end.

Definition FloatKind_Kind (k : FloatKind) : Kind :=
  match k with KFloat32 => Reflect.Float32 | KFloat64 => Reflect.Float64 end.

Definition ComplexKind_Kind (k : ComplexKind) : Kind :=
  match k with
  | KComplex64 => Reflect.Complex64
  | KComplex128 => Reflect.Complex128
  end.

Local Unset Elimination Schemes.

Inductive host : Type :=
| HNil
| HBool (name : option string) (b : bool)
| HInt (name : option string) (k : IntKind) (n : Z)
| HFloat (name : option string) (k : FloatKind) (bits : Z)
| HComplex (name : option string) (k : ComplexKind) (re im : Z)
| HString (name : option string) (s : string)
| HArray (name : option string) (e : Type_) (elems : list host)
| HSlice (name : option string) (e : Type_) (elems : option (list host))
| HMap (name : option string) (k e : Type_)
       (entries : option (list (host * host)))
| HStruct (name : string) (fields : list (StructField * host))
          (methods : list Method)
| HPtr (name : option string) (e : Type_) (target : option (Z * host))
| HFunc (name : option string) (numIn numOut : nat) (code : option callee)
| HChan (name : option string) (e : Type_) (addr : option Z)
| HUnsafePointer (name : option string) (addr : Z)
| HValue (v : Value)

(** The implementations of the [Value] interface in value.go.
    [arrayValue], [mapValue], [stringValue] and [structValue] are
    [struct{ wrapperValue }]: each holds the embedded wrapper's [basis]. *)
with Value : Type :=
| wrapperValue (basis : host)
| arrayValue (basis : host)
| mapValue (basis : host)
| stringValue (basis : host)
| structValue (basis : host)
| valueEmbed

(** What a func value runs when called: a function of the application,
    or a method bound to its receiver ([rv.MethodByName(name)]). *)
with callee : Type :=
| Closure (id : string)
| BoundMethod (recv : host) (name : string).

Local Set Elimination Schemes.

(** [var nilValue = wrapperValue{nil}] and its two siblings. *)
Definition nilValue : Value := wrapperValue HNil.
Definition falseValue : Value := wrapperValue (HBool None false).
Definition trueValue : Value := wrapperValue (HBool None true).

(** Go's [int] is 64 bits wide on the platforms modelled here. *)
Definition int_min : Z := - 2 ^ 63.
Definition int_max : Z := 2 ^ 63 - 1.

(** Two's-complement wrap-around of [int] arithmetic. *)
Definition wrap_int (z : Z) : Z := (z + 2 ^ 63) mod 2 ^ 64 - 2 ^ 63.

(** ** Panics *)

(** Modelled from the spec: [conversionError] and the error it builds,
    which the package declares outside value.go.  The spec has [Int()]
    signal "a [ConversionError] identifying the attempted target type and
    the actual value"; the error is the record of the three arguments
    value.go passes: a modifier (always empty there), the offending value
    and the target type. *)
Record ConversionError : Type := conversionError {
  ce_modifier : string;
  ce_value : host;
  ce_type : Type_
}.

(** What a panic carries: [errorValue e] is [panic(e)] with the
    evaluator's own error, [panicValue v] is [panic(v)] with a host
    datum, [reflectPanic] is raised inside package [reflect],
    [runtimeError] by the Go runtime, and [calleePanic] comes out of
    application code. *)
Inductive panic : Type :=
| errorValue (e : ConversionError)
| reflectPanic (msg : string)
| runtimeError (msg : string)
| panicValue (v : host)
| calleePanic (v : host).

Inductive result (A : Type) : Type :=
| Ok (a : A)
| Panic (p : panic).

Arguments Ok {A} a.
Arguments Panic {A} p.

Definition bind {A B : Type} (r : result A) (f : A -> result B) : result B :=
  match r with
  | Ok a => f a
  | Panic p => Panic p
  end.

Notation "x <- c ;; k" := (bind c (fun x => k))
  (at level 61, c at next level, right associativity).

(** The outcome of calling application code with no arguments: the
    results, each with the kind of its declared type, or a panic. *)
Inductive outcome : Type :=
| Returns (results : list (Kind * host))
| Panics (v : host).

(** ** Package [reflect]: dynamic types and values *)

Definition named (name : option string) (t : Type_) : Type_ :=
  match name with
  | Some n => Reflect.TNamed n t
  | None => t
  end.

(** The eight methods of the [Value] interface, as the evaluator's own
    struct types declare them (all on the value receiver). *)
Definition Value_methods : list Method :=
  [ Reflect.mkMethod "Contains" false 1 1;
    Reflect.mkMethod "Equal" false 1 1;
    Reflect.mkMethod "IndexValue" false 1 1;
    Reflect.mkMethod "Int" false 0 1;
    Reflect.mkMethod "Interface" false 0 1;
    Reflect.mkMethod "Less" false 1 1;
    Reflect.mkMethod "PropertyValue" false 1 1;
    Reflect.mkMethod "Test" false 0 1 ].

(** The fields [FieldByName] finds in the evaluator's own struct types:
    [basis], and for the four embedding types the embedded wrapper. *)
Definition Value_fields (v : Value) : list (StructField * host) :=
  let basis_field b := (Reflect.mkField "basis" false Reflect.Interface, b) in
  let embedded b :=
    (Reflect.mkField "wrapperValue" false Reflect.Struct,
     HValue (wrapperValue b)) in
  match v with
  | wrapperValue b => [basis_field b]
  | arrayValue b | mapValue b | stringValue b | structValue b =>
      [embedded b; basis_field b]
  | valueEmbed => []
  end.

Definition Value_type_name (v : Value) : string :=
  match v with
  | wrapperValue _ => "evaluator.wrapperValue"
  | arrayValue _ => "evaluator.arrayValue"
  | mapValue _ => "evaluator.mapValue"
  | stringValue _ => "evaluator.stringValue"
  | structValue _ => "evaluator.structValue"
  | valueEmbed => "evaluator.valueEmbed"
  end.

(** [reflect.TypeOf(x)]: the dynamic type, [None] for the nil interface. *)
Definition TypeOf (x : host) : option Type_ :=
  match x with
  | HNil => None
  | HBool n _ => Some (named n (Reflect.TBasic Reflect.Bool))
  | HInt n k _ => Some (named n (Reflect.TBasic (IntKind_Kind k)))
  | HFloat n k _ => Some (named n (Reflect.TBasic (FloatKind_Kind k)))
  | HComplex n k _ _ => Some (named n (Reflect.TBasic (ComplexKind_Kind k)))
  | HString n _ => Some (named n (Reflect.TBasic Reflect.String))
  | HArray n e l => Some (named n (Reflect.TArray (List.length l) e))
  | HSlice n e _ => Some (named n (Reflect.TSlice e))
  | HMap n k e _ => Some (named n (Reflect.TMap k e))
  | HStruct name fs ms => Some (Reflect.TStruct name (map fst fs) ms)
  | HPtr n e _ => Some (named n (Reflect.TPtr e))
  | HFunc n i o _ => Some (named n (Reflect.TFunc i o))
  | HChan n e _ => Some (named n (Reflect.TChan e))
  | HUnsafePointer n _ =>
      Some (named n (Reflect.TBasic Reflect.UnsafePointer))
  | HValue v =>
      Some (Reflect.TStruct (Value_type_name v)
              (map fst (Value_fields v)) Value_methods)
  end.

(** [reflect.TypeOf(x).Kind()], read off the datum ([Invalid] stands for
    the nil interface, which has no type). *)
Definition KindOf (x : host) : Kind :=
  match x with
  | HNil => Reflect.Invalid
  | HBool _ _ => Reflect.Bool
  | HInt _ k _ => IntKind_Kind k
  | HFloat _ k _ => FloatKind_Kind k
  | HComplex _ k _ _ => ComplexKind_Kind k
  | HString _ _ => Reflect.String
  | HArray _ _ _ => Reflect.Array
  | HSlice _ _ _ => Reflect.Slice
  | HMap _ _ _ _ => Reflect.Map
  | HStruct _ _ _ => Reflect.Struct
  | HPtr _ _ _ => Reflect.Ptr
  | HFunc _ _ _ _ => Reflect.Func
  | HChan _ _ _ => Reflect.Chan
  | HUnsafePointer _ _ => Reflect.UnsafePointer
  | HValue _ => Reflect.Struct
  end.

(** Whether a datum of a nillable kind is nil. *)
Definition host_isnil (x : host) : bool :=
  match x with
  | HNil => true
  | HSlice _ _ None | HMap _ _ _ None | HPtr _ _ None
  | HFunc _ _ _ None | HChan _ _ None => true
  | HUnsafePointer _ a => (a =? 0)%Z
  | _ => false
  end.

(** Float equality on bit patterns: a NaN equals nothing, the two zeros
    are equal. *)
Definition float_isNaN (k : FloatKind) (bits : Z) : bool :=
  match k with
  | KFloat64 =>
      (Z.land (Z.shiftr bits 52) 2047 =? 2047)%Z
      && negb (Z.land bits (2 ^ 52 - 1) =? 0)%Z
  | KFloat32 =>
      (Z.land (Z.shiftr bits 23) 255 =? 255)%Z
      && negb (Z.land bits (2 ^ 23 - 1) =? 0)%Z
  end.

Definition float_isZero (k : FloatKind) (bits : Z) : bool :=
  match k with
  | KFloat64 => (Z.land bits (2 ^ 63 - 1) =? 0)%Z
  | KFloat32 => (Z.land bits (2 ^ 31 - 1) =? 0)%Z
  end.

Definition float_eqb (k : FloatKind) (a b : Z) : bool :=
  negb (float_isNaN k a) && negb (float_isNaN k b)
  && ((a =? b)%Z || (float_isZero k a && float_isZero k b)).

Definition name_eqb (a b : option string) : bool :=
  match a, b with
  | Some x, Some y => x =? y
  | None, None => true
  | _, _ => false
  end.

Definition IntKind_eqb (a b : IntKind) : bool :=
  Reflect.Kind_eqb (IntKind_Kind a) (IntKind_Kind b).

Definition FloatKind_eqb (a b : FloatKind) : bool :=
  Reflect.Kind_eqb (FloatKind_Kind a) (FloatKind_Kind b).

Definition ComplexKind_eqb (a b : ComplexKind) : bool :=
  Reflect.Kind_eqb (ComplexKind_Kind a) (ComplexKind_Kind b).

(** Whether a map can hash the datum as a key: slices, maps and funcs
    cannot be hashed, nor can an array or struct that holds one. *)
Fixpoint hashable (x : host) : bool :=
  match x with
  | HSlice _ _ _ | HMap _ _ _ _ | HFunc _ _ _ _ => false
  | HArray _ _ l => forallb hashable l
  | HStruct _ fs _ => forallb (fun f => hashable (snd f)) fs
  | HValue v =>
      match v with
      | wrapperValue b | arrayValue b | mapValue b | stringValue b
      | structValue b => hashable b
      | valueEmbed => true
      end
  | _ => true
  end.

(** Go's [==] on two map keys: same dynamic type and same value;
    pointers and chans are equal when their addresses are. *)
Fixpoint host_eqb (a b : host) {struct a} : bool :=
  match a, b with
  | HNil, HNil => true
  | HBool n x, HBool m y => name_eqb n m && Bool.eqb x y
  | HInt n k x, HInt m k' y => name_eqb n m && IntKind_eqb k k' && (x =? y)%Z
  | HFloat n k x, HFloat m k' y =>
      name_eqb n m && FloatKind_eqb k k' && float_eqb k x y
  | HComplex n k r i, HComplex m k' r' i' =>
      name_eqb n m && ComplexKind_eqb k k'
      && match k with
         | KComplex64 => float_eqb KFloat32 r r' && float_eqb KFloat32 i i'
         | KComplex128 => float_eqb KFloat64 r r' && float_eqb KFloat64 i i'
         end
  | HString n x, HString m y => name_eqb n m && (x =? y)
  | HArray n e l, HArray m e' l' =>
      name_eqb n m && Reflect.Type_eqb e e'
      && (fix all2 (l l' : list host) : bool :=
            match l, l' with
            | [], [] => true
            | x :: r, y :: r' => host_eqb x y && all2 r r'
            | _, _ => false
            end) l l'
  | HStruct n fs ms, HStruct m fs' ms' =>
      (n =? m)
      && (fix all2 (l l' : list (StructField * host)) : bool :=
            match l, l' with
            | [], [] => true
            | (f, x) :: r, (f', y) :: r' =>
                (if Reflect.StructField_eq_dec f f' then true else false)
                && host_eqb x y && all2 r r'
            | _, _ => false
            end) fs fs'
  | HPtr n e t, HPtr m e' t' =>
      name_eqb n m && Reflect.Type_eqb e e'
      && match t, t' with
         | Some (a, _), Some (a', _) => (a =? a')%Z
         | None, None => true
         | _, _ => false
         end
  | HChan n e x, HChan m e' y =>
      name_eqb n m && Reflect.Type_eqb e e'
      && match x, y with
         | Some a, Some a' => (a =? a')%Z
         | None, None => true
         | _, _ => false
         end
  | HUnsafePointer n x, HUnsafePointer m y => name_eqb n m && (x =? y)%Z
  | HValue v, HValue w =>
      match v, w with
      | wrapperValue x, wrapperValue y | arrayValue x, arrayValue y
      | mapValue x, mapValue y | stringValue x, stringValue y
      | structValue x, structValue y => host_eqb x y
      | valueEmbed, valueEmbed => true
      | _, _ => false
      end
  | _, _ => false
  end.

(** [reflect.Value]: the zero Value, or a value of a static kind holding
    a datum.  The static kind is the datum's own except in a slot of
    interface type (an element, field or result declared [interface{}] or
    [error]), whose kind is [Interface] and whose datum is what the
    interface holds, [HNil] when it is nil.  [ro] marks a value reached
    through an unexported struct field. *)
Inductive rValue : Type :=
| Zero
| Val (k : Kind) (ro : bool) (x : host).

Module RV.

(** [reflect.ValueOf(x)]: the zero Value for the nil interface. *)
Definition ValueOf (x : host) : rValue :=
  match x with
  | HNil => Zero
  | _ => Val (KindOf x) false x
  end.

Definition IsValid (v : rValue) : bool :=
  match v with Zero => false | Val _ _ _ => true end.

Definition Kind (v : rValue) : Reflect.Kind :=
  match v with Zero => Reflect.Invalid | Val k _ _ => k end.

(** The datum of a value whose static kind is not [Interface]. *)
Definition concrete (v : rValue) : option host :=
  match v with
  | Zero => None
  | Val k _ x => if Reflect.Kind_eqb k Reflect.Interface then None else Some x
  end.

Definition readonly (v : rValue) : bool :=
  match v with Zero => false | Val _ ro _ => ro end.

(** [v.Type()].  It panics on the zero Value.  The interface type of a
    slot is not recorded and reads as [interface{}]; value.go asks the
    type of values made by [reflect.ValueOf] and of func values only. *)
Definition Typ (v : rValue) : result Type_ :=
  match v with
  | Zero => Panic (reflectPanic "reflect: call of reflect.Value.Type on zero Value")
  | Val k _ x =>
      match concrete v, TypeOf x with
      | Some _, Some t => Ok t
      | _, _ => Ok (Reflect.TInterface [])
      end
  end.

(** [v.Interface()]: panics on the zero Value and on a value reached
    through an unexported field. *)
Definition Interface (v : rValue) : result host :=
  match v with
  | Zero =>
      Panic (reflectPanic "reflect: call of reflect.Value.Interface on zero Value")
  | Val _ true _ =>
      Panic (reflectPanic "reflect.Value.Interface: cannot return value obtained from unexported field or method")
  | Val _ false x => Ok x
  end.

(** [v.IsNil()]: defined on chan, func, interface, map, pointer, slice
    and unsafe pointer values; it panics on every other kind. *)
Definition IsNil (v : rValue) : result bool :=
  match v with
  | Zero => Panic (reflectPanic "reflect: call of reflect.Value.IsNil on zero Value")
  | Val k _ x =>
      match k with
      | Reflect.Interface => Ok (match x with HNil => true | _ => false end)
      | Reflect.Chan | Reflect.Func | Reflect.Map | Reflect.Ptr
      | Reflect.Slice | Reflect.UnsafePointer => Ok (host_isnil x)
      | _ => Panic (reflectPanic "reflect: call of reflect.Value.IsNil on a non-nillable Value")
      end
  end.

(** [v.Len()] of an array, slice, string, map or chan (a chan holds
    nothing here); it panics on the other kinds. *)
Definition Len (v : rValue) : result Z :=
  match concrete v with
  | Some (HArray _ _ l) => Ok (Z.of_nat (List.length l))
  | Some (HSlice _ _ (Some l)) => Ok (Z.of_nat (List.length l))
  | Some (HSlice _ _ None) => Ok 0%Z
  | Some (HString _ s) => Ok (Z.of_nat (String.length s))
  | Some (HMap _ _ _ (Some m)) => Ok (Z.of_nat (List.length m))
  | Some (HMap _ _ _ None) => Ok 0%Z
  | Some (HChan _ _ _) => Ok 0%Z
  | _ => Panic (reflectPanic "reflect: call of reflect.Value.Len on a Value without length")
  end.

Definition nth_Z {A : Type} (l : list A) (i : Z) : option A :=
  if (i <? 0)%Z then None else nth_error l (Z.to_nat i).

(** [v.Index(i)] of an array, slice or string; it panics when [i] is out
    of range and on the other kinds. *)
Definition Index (v : rValue) (i : Z) : result rValue :=
  let out_of_range := Panic (reflectPanic "reflect: index out of range") in
  let elem e l :=
    match nth_Z l i with
    | Some x => Ok (Val (Reflect.Type_Kind e) (readonly v) x)
    | None => out_of_range
    end in
  match concrete v with
  | Some (HArray _ e l) => elem e l
  | Some (HSlice _ e (Some l)) => elem e l
  | Some (HSlice _ e None) => out_of_range
  | Some (HString _ s) =>
      match (if (i <? 0)%Z then None else String.get (Z.to_nat i) s) with
      | Some c =>
          Ok (Val Reflect.Uint8 (readonly v)
                (HInt None KUint8 (Z.of_nat (Ascii.nat_of_ascii c))))
      | None => out_of_range
      end
  | _ => Panic (reflectPanic "reflect: call of reflect.Value.Index on a Value without elements")
  end.

(** [v.Elem()] of a pointer or an interface value: the zero Value when
    it is nil. *)
Definition Elem (v : rValue) : result rValue :=
  match v with
  | Val Reflect.Interface ro x => Ok (match x with HNil => Zero | _ => Val (KindOf x) ro x end)
  | Val Reflect.Ptr ro (HPtr _ e (Some (_, t))) =>
      Ok (Val (Reflect.Type_Kind e) ro t)
  | Val Reflect.Ptr _ (HPtr _ _ None) => Ok Zero
  | _ => Panic (reflectPanic "reflect: call of reflect.Value.Elem on a Value that is no pointer or interface")
  end.

(** Assignability of a value of type [V] to type [T], as [MapIndex]
    checks its key: identical types, or identical underlying types of the
    same kind when one of the two has no name, or [T] an interface type
    that [V] implements. *)
Definition directlyAssignable (T V : Type_) : bool :=
  Reflect.Type_eqb T V
  || (negb (Reflect.hasName T && Reflect.hasName V)
      && Reflect.Kind_eqb (Reflect.Type_Kind T) (Reflect.Type_Kind V)
      && Reflect.Type_eqb (Reflect.underlying T) (Reflect.underlying V)).

Definition implements (T V : Type_) : bool :=
  match Reflect.underlying T with
  | Reflect.TInterface ms =>
      forallb (fun m =>
                 existsb (fun d => Reflect.m_Name d =? m) (Reflect.method_set V))
              ms
  | _ => false
  end.

Definition assignable (T V : Type_) : bool :=
  directlyAssignable T V || implements T V.

(** The name of a defined type. *)
Definition type_name (t : Type_) : option string :=
  match t with
  | Reflect.TNamed n _ => Some n
  | _ => None
  end.

(** A key as [MapIndex] looks it up: [assignTo] gives an assignable
    probe the map's key type.  Under an interface key type the probe
    keeps its dynamic type; under any other key type it takes that type,
    its value unchanged. *)
Definition retype (t : Type_) (x : host) : host :=
  if Reflect.Kind_eqb (Reflect.Type_Kind t) Reflect.Interface then x
  else
    match x with
    | HBool _ b => HBool (type_name t) b
    | HInt _ k n => HInt (type_name t) k n
    | HFloat _ k f => HFloat (type_name t) k f
    | HComplex _ k r i => HComplex (type_name t) k r i
    | HString _ s => HString (type_name t) s
    | HArray _ e l => HArray (type_name t) e l
    | HPtr _ e p => HPtr (type_name t) e p
    | HChan _ e a => HChan (type_name t) e a
    | HUnsafePointer _ a => HUnsafePointer (type_name t) a
    | HStruct _ fs _ =>
        match t with
        | Reflect.TStruct name _ ms => HStruct name fs ms
        | _ => x
        end
    | _ => x
    end.

(** The entry of a map under a key. *)
Definition lookup (m : list (host * host)) (key : host) : option host :=
  match find (fun kv => host_eqb (fst kv) key) m with
  | Some kv => Some (snd kv)
  | None => None
  end.

(** [v.MapIndex(key)]: the key, given the map's key type, is looked up;
    the zero Value when it is absent or the map is nil.  It panics when
    [v] is no map, when the key is the zero Value or its type is not
    assignable to the map's key type, and when the key cannot be
    hashed. *)
Definition MapIndex (v key : rValue) : result rValue :=
  match concrete v with
  | Some (HMap _ kt et entries) =>
      match key with
      | Zero => Panic (runtimeError "invalid memory address or nil pointer dereference")
      | Val _ _ kx =>
          match TypeOf kx with
          | None => Panic (runtimeError "invalid memory address or nil pointer dereference")
          | Some t =>
              if assignable kt t then
                if hashable kx then
                  match entries with
                  | Some m =>
                      match lookup m (retype kt kx) with
                      | Some e =>
                          Ok (Val (Reflect.Type_Kind et)
                                (readonly v || readonly key) e)
                      | None => Ok Zero
                      end
                  | None => Ok Zero
                  end
                else Panic (runtimeError "hash of unhashable type")
              else Panic (reflectPanic "reflect.Value.MapIndex: value is not assignable to the key type")
          end
      end
  | _ => Panic (reflectPanic "reflect: call of reflect.Value.MapIndex on a Value that is no map")
  end.

(** The fields of a struct datum, with their values. *)
Definition fields_of (x : host) : option (list (StructField * host)) :=
  match x with
  | HStruct _ fs _ => Some fs
  | HValue v => Some (Value_fields v)
  | _ => None
  end.

(** [v.FieldByName(name)]: the field's value, read-only when the field
    is unexported; the zero Value when the struct has no such field.  It
    panics when [v] is no struct. *)
Definition FieldByName (v : rValue) (name : string) : result rValue :=
  match concrete v with
  | Some x =>
      match fields_of x with
      | Some fs =>
          match find (fun f => Reflect.sf_Name (fst f) =? name) fs with
          | Some (f, fx) =>
              Ok (Val (Reflect.sf_Kind f)
                    (readonly v || negb (Reflect.sf_exported f)) fx)
          | None => Ok Zero
          end
      | None => Panic (reflectPanic "reflect: call of reflect.Value.FieldByName on a Value that is no struct")
      end
  | None => Panic (reflectPanic "reflect: call of reflect.Value.FieldByName on a Value that is no struct")
  end.

(** [v.MethodByName(name)]: the method bound to [v] as a func value; the
    zero Value when [v]'s type has no such method. *)
Definition MethodByName (v : rValue) (name : string) : result rValue :=
  match v with
  | Zero => Panic (reflectPanic "reflect: call of reflect.Value.MethodByName on zero Value")
  | Val _ ro x =>
      match concrete v, TypeOf x with
      | Some _, Some t =>
          match Reflect.Type_MethodByName t name with
          | Some m =>
              Ok (Val Reflect.Func ro
                    (HFunc None (Reflect.m_NumIn m) (Reflect.m_NumOut m)
                       (Some (BoundMethod x name))))
          | None => Ok Zero
          end
      | _, _ => Ok Zero
      end
  end.

(** [t.NumIn()] and [t.NumOut()] of a func type. *)
Definition NumIn (t : Type_) : result nat :=
  match Reflect.underlying t with
  | Reflect.TFunc i _ => Ok i
  | _ => Panic (reflectPanic "reflect: NumIn of non-func type")
  end.

Definition NumOut (t : Type_) : result nat :=
  match Reflect.underlying t with
  | Reflect.TFunc _ o => Ok o
  | _ => Panic (reflectPanic "reflect: NumOut of non-func type")
  end.

(** [v.Call([]reflect.Value{})]: runs the func value with no arguments.
    It panics when [v] is no func, was reached through an unexported
    field, is nil or takes arguments, and when the callee panics. *)
Definition Call (call : callee -> outcome) (v : rValue) : result (list rValue) :=
  match v with
  | Val Reflect.Func ro (HFunc _ numIn _ code) =>
      if ro then
        Panic (reflectPanic "reflect: reflect.Value.Call using value obtained using unexported field")
      else
        match code with
        | None => Panic (reflectPanic "reflect: call of nil function")
        | Some c =>
            if (0 <? numIn)%nat then
              Panic (reflectPanic "reflect: Call with too few input arguments")
            else
              match call c with
              | Returns rs => Ok (map (fun r => Val (fst r) false (snd r)) rs)
              | Panics p => Panic (calleePanic p)
              end
        end
  | _ => Panic (reflectPanic "reflect: call of reflect.Value.Call on a Value that is no func")
  end.

End RV.

(** [t.Key()] of a map type, [t.Elem()] of an array, chan, map, pointer
    or slice type, and [t.FieldByName(name)] of a struct type; each
    panics on the other kinds. *)
Definition Type_Key (t : Type_) : result Type_ :=
  match Reflect.underlying t with
  | Reflect.TMap k _ => Ok k
  | _ => Panic (reflectPanic "reflect: Key of non-map type")
  end.

Definition Type_Elem (t : Type_) : result Type_ :=
  match Reflect.underlying t with
  | Reflect.TPtr e | Reflect.TSlice e | Reflect.TArray _ e
  | Reflect.TMap _ e | Reflect.TChan e => Ok e
  | _ => Panic (reflectPanic "reflect: Elem of invalid type")
  end.

Definition Type_FieldByName (t : Type_) (name : string)
  : result (option StructField) :=
  match Reflect.struct_fields t with
  | Some fs => Ok (find (fun f => Reflect.sf_Name f =? name) fs)
  | None => Panic (reflectPanic "reflect: FieldByName of non-struct type")
  end.

(** [results[i]]: indexing a Go slice panics out of range. *)
Definition slice_index {A : Type} (l : list A) (i : nat) : result A :=
  match nth_error l i with
  | Some a => Ok a
  | None => Panic (runtimeError "index out of range")
  end.

(** ** value.go *)

(** Comparison of an [interface{}] with a constant, as in
    [switch value { case nil: ... case true: ... }] and
    [index.Interface() == sizeKey]: the constant takes its default type,
    so the two are equal only when the datum is of the predeclared [bool]
    or [string] type and holds the same value.  A datum of another
    dynamic type compares unequal, without a panic. *)
Definition is_nil (x : host) : bool :=
  match x with HNil => true | _ => false end.

Definition eq_bool (x : host) (b : bool) : bool :=
  match x with HBool None b' => Bool.eqb b' b | _ => false end.

Definition eq_string (x : host) (s : string) : bool :=
  match x with HString None s' => s' =? s | _ => false end.

(** [func ValueOf(value interface{}) Value].  The recursion is on the
    pointer's target, [rv.Elem().Interface()]: [Elem] of a nil pointer is
    the zero Value, on which [Interface] panics. *)
Fixpoint ValueOf (value : host) : result Value :=
  if is_nil value then Ok nilValue
  else if eq_bool value true then Ok trueValue
  else if eq_bool value false then Ok falseValue
  else
    match value with
    | HValue v => Ok v
    | _ =>
        let rk := KindOf value in
        if (Reflect.Kind_num rk <=? Reflect.Kind_num Reflect.Float64)%nat
        then Ok (wrapperValue value)
        else
          match rk with
          | Reflect.Ptr =>
              match value with
              | HPtr _ e target =>
                  if Reflect.Kind_eqb (Reflect.Type_Kind e) Reflect.Struct
                  then Ok (structValue value)
                  else
                    match target with
                    | Some (_, t) => ValueOf t
                    | None =>
                        Panic (reflectPanic "reflect: call of reflect.Value.Interface on zero Value")
                    end
              | _ => Panic (reflectPanic "reflect: Elem of invalid type")
              end
          | Reflect.String => Ok (stringValue value)
          | Reflect.Array | Reflect.Slice => Ok (arrayValue value)
          | Reflect.Map => Ok (mapValue value)
          | Reflect.Struct => Ok (structValue value)
          | _ => Ok (wrapperValue value)
          end
    end.

(** *** [valueEmbed]: the default implementations *)

Definition valueEmbed_IndexValue (index : Value) : result Value := Ok nilValue.
Definition valueEmbed_Contains (elem : Value) : result bool := Ok false.
Definition valueEmbed_Int : result Z :=
  Panic (errorValue (conversionError "" (HValue valueEmbed) (Reflect.TBasic Reflect.Int))).
Definition valueEmbed_Interface : host := HNil.
Definition valueEmbed_PropertyValue (index : Value) : result Value := Ok nilValue.
Definition valueEmbed_Test : bool := true.

(** *** [wrapperValue] *)

Definition wrapperValue_IndexValue (basis : host) (index : Value)
  : result Value := Ok nilValue.
Definition wrapperValue_Contains (basis : host) (elem : Value)
  : result bool := Ok false.
Definition wrapperValue_Interface (basis : host) : host := basis.
Definition wrapperValue_PropertyValue (basis : host) (index : Value)
  : result Value := Ok nilValue.

(** [return v.basis != nil && v.basis != false] *)
Definition wrapperValue_Test (basis : host) : bool :=
  negb (is_nil basis) && negb (eq_bool basis false).

(** [if n, ok := v.basis.(int); ok { return n }]
    [panic(conversionError("", v.basis, reflect.TypeOf(1)))] *)
Definition wrapperValue_Int (basis : host) : result Z :=
  match basis with
  | HInt None KInt n => Ok n
  | _ => Panic (errorValue (conversionError "" basis (Reflect.TBasic Reflect.Int)))
  end.

(** *** Methods every implementation takes from its embedded wrapper *)

Definition Interface (v : Value) : host :=
  match v with
  | wrapperValue b | arrayValue b | mapValue b | stringValue b
  | structValue b => wrapperValue_Interface b
  | valueEmbed => valueEmbed_Interface
  end.

Definition Test (v : Value) : bool :=
  match v with
  | wrapperValue b | arrayValue b | mapValue b | stringValue b
  | structValue b => wrapperValue_Test b
  | valueEmbed => valueEmbed_Test
  end.

Definition Int (v : Value) : result Z :=
  match v with
  | wrapperValue b | arrayValue b | mapValue b | stringValue b
  | structValue b => wrapperValue_Int b
  | valueEmbed => valueEmbed_Int
  end.

Definition firstKey : string := "first".
Definition lastKey : string := "last".
Definition sizeKey : string := "size".

(** [ValueOf(rv.Index(i).Interface())] *)
Definition element (rv : rValue) (i : Z) : result Value :=
  e <- RV.Index rv i ;;
  x <- RV.Interface e ;;
  ValueOf x.

(** [func (v arrayValue) IndexValue(index Value) Value] *)
Definition arrayValue_IndexValue (basis : host) (index : Value)
  : result Value :=
  let rv := RV.ValueOf basis in
  match Interface index with
  | HInt None KInt n =>
      n <- (if (n <? 0)%Z
            then len <- RV.Len rv ;; Ok (wrap_int (n + len))
            else Ok n) ;;
      inside <- (if (0 <=? n)%Z
                 then len <- RV.Len rv ;; Ok (n <? len)%Z
                 else Ok false) ;;
      if inside then element rv n else Ok nilValue
  | _ => Ok nilValue
  end.

(** [func (v mapValue) IndexValue(index Value) Value] *)
Definition mapValue_IndexValue (basis : host) (index : Value)
  : result Value :=
  let rv := RV.ValueOf basis in
  let iv := RV.ValueOf (Interface index) in
  rt <- RV.Typ rv ;;
  kt <- Type_Key rt ;;
  it <- RV.Typ iv ;;
  if Reflect.Type_eqb kt it then
    ev <- RV.MapIndex rv iv ;;
    if RV.IsValid ev
    then x <- RV.Interface ev ;; ValueOf x
    else Ok nilValue
  else Ok nilValue.

(** [func (v mapValue) Contains(index Value) bool] *)
Definition mapValue_Contains (basis : host) (index : Value) : result bool :=
  let rv := RV.ValueOf basis in
  let iv := RV.ValueOf (Interface index) in
  rt <- RV.Typ rv ;;
  kt <- Type_Key rt ;;
  it <- RV.Typ iv ;;
  if Reflect.Type_eqb kt it then
    ev <- RV.MapIndex rv iv ;;
    Ok (RV.IsValid ev)
  else Ok false.

(** [func (v structValue) Contains(elem Value) bool] *)
Definition structValue_Contains (basis : host) (elem : Value) : result bool :=
  match Interface elem with
  | HString None name =>
      match TypeOf basis with
      | None => Panic (runtimeError "invalid memory address or nil pointer dereference")
      | Some rt =>
          rt <- (if Reflect.Kind_eqb (Reflect.Type_Kind rt) Reflect.Ptr
                 then Type_Elem rt else Ok rt) ;;
          f <- Type_FieldByName rt name ;;
          match f with
          | Some _ => Ok true
          | None =>
              match Reflect.Type_MethodByName rt name with
              | Some _ => Ok true
              | None => Ok false
              end
          end
      end
  | _ => Ok false
  end.

(** [func (v arrayValue) PropertyValue(index Value) Value] *)
Definition arrayValue_PropertyValue (basis : host) (index : Value)
  : result Value :=
  let rv := RV.ValueOf basis in
  let key := Interface index in
  if eq_string key firstKey then
    len <- RV.Len rv ;;
    if (0 <? len)%Z then element rv 0 else Ok nilValue
  else if eq_string key lastKey then
    len <- RV.Len rv ;;
    if (0 <? len)%Z
    then len <- RV.Len rv ;; element rv (wrap_int (len - 1))
    else Ok nilValue
  else if eq_string key sizeKey then
    len <- RV.Len rv ;;
    ValueOf (HInt None KInt len)
  else Ok nilValue.

(** [func (v mapValue) PropertyValue(index Value) Value] *)
Definition mapValue_PropertyValue (basis : host) (index : Value)
  : result Value :=
  let rv := RV.ValueOf (wrapperValue_Interface basis) in
  let iv := RV.ValueOf (Interface index) in
  ev <- RV.MapIndex rv iv ;;
  if RV.IsValid ev then
    x <- RV.Interface ev ;; ValueOf x
  else if eq_string (Interface index) sizeKey then
    len <- RV.Len rv ;;
    ValueOf (HInt None KInt len)
  else Ok nilValue.

(** [func (v stringValue) PropertyValue(index Value) Value].  The type
    assertion [v.basis.(string)] panics unless the basis is of the
    predeclared [string] type. *)
Definition stringValue_PropertyValue (basis : host) (index : Value)
  : result Value :=
  if eq_string (Interface index) sizeKey then
    match basis with
    | HString None s => ValueOf (HInt None KInt (Z.of_nat (String.length s)))
    | _ => Panic (runtimeError "interface conversion: interface {} is not string")
    end
  else Ok nilValue.

(** *** [structValue]: records and the invocation bridge

    The accessors of the embedding application are outside the
    evaluator: [call] gives the outcome of running one with no
    arguments. *)

Section Records.

Variable call : callee -> outcome.

(** [func (v structValue) invoke(fv reflect.Value) Value] *)
Definition invoke (fv : rValue) : result Value :=
  isnil <- RV.IsNil fv ;;
  if isnil then Ok nilValue
  else
    mt <- RV.Typ fv ;;
    numIn <- RV.NumIn mt ;;
    malformed <- (if (0 <? numIn)%nat then Ok true
                  else numOut <- RV.NumOut mt ;; Ok (2 <? numOut)%nat) ;;
    if malformed then Ok nilValue
    else
      results <- RV.Call call fv ;;
      failed <- (if (1 <? List.length results)%nat
                 then r1 <- slice_index results 1 ;;
                      isnil <- RV.IsNil r1 ;;
                      Ok (negb isnil)
                 else Ok false) ;;
      if failed then
        r1 <- slice_index results 1 ;;
        x <- RV.Interface r1 ;;
        Panic (panicValue x)
      else
        r0 <- slice_index results 0 ;;
        x <- RV.Interface r0 ;;
        ValueOf x.

(** [m := rv.MethodByName(name); return v.invoke(m)] *)
Definition invoke_method (rv : rValue) (name : string) : result Value :=
  m <- RV.MethodByName rv name ;;
  invoke m.

(** [func (v structValue) PropertyValue(index Value) Value] *)
Definition structValue_PropertyValue (basis : host) (index : Value)
  : result Value :=
  match Interface index with
  | HString None name =>
      let rv := RV.ValueOf basis in
      match TypeOf basis with
      | None => Panic (runtimeError "invalid memory address or nil pointer dereference")
      | Some rt =>
          match Reflect.Type_MethodByName rt name with
          | Some _ => invoke_method rv name
          | None =>
              target <- (if Reflect.Kind_eqb (Reflect.Type_Kind rt) Reflect.Ptr
                         then rt' <- Type_Elem rt ;;
                              rv' <- RV.Elem rv ;;
                              Ok (rt', rv')
                         else Ok (rt, rv)) ;;
              let rt := fst target in
              let rv := snd target in
              f <- Type_FieldByName rt name ;;
              match f with
              | Some _ =>
                  fv <- RV.FieldByName rv name ;;
                  if Reflect.Kind_eqb (RV.Kind fv) Reflect.Func
                  then invoke fv
                  else x <- RV.Interface fv ;; ValueOf x
              | None =>
                  match Reflect.Type_MethodByName rt name with
                  | Some _ => invoke_method rv name
                  | None => Ok nilValue
                  end
              end
          end
      end
  | _ => Ok nilValue
  end.

(** [func (v structValue) IndexValue(index Value) Value] *)
Definition structValue_IndexValue (basis : host) (index : Value)
  : result Value :=
  structValue_PropertyValue basis index.

(** *** Dispatch through the [Value] interface *)

Definition IndexValue (v index : Value) : result Value :=
  match v with
  | wrapperValue b | stringValue b => wrapperValue_IndexValue b index
  | arrayValue b => arrayValue_IndexValue b index
  | mapValue b => mapValue_IndexValue b index
  | structValue b => structValue_IndexValue b index
  | valueEmbed => valueEmbed_IndexValue index
  end.

Definition PropertyValue (v index : Value) : result Value :=
  match v with
  | wrapperValue b => wrapperValue_PropertyValue b index
  | arrayValue b => arrayValue_PropertyValue b index
  | mapValue b => mapValue_PropertyValue b index
  | stringValue b => stringValue_PropertyValue b index
  | structValue b => structValue_PropertyValue b index
  | valueEmbed => valueEmbed_PropertyValue index
  end.

End Records.

(** *** Comparison and membership

    [Equal] and [Less], the package's comparison of two unwrapped data,
    are declared outside value.go and are taken as given here, as is
    [fmt.Sprint]. *)

(** [strings.Contains(s, substr)]: whether [substr] occurs in [s]; the
    empty string occurs in every string. *)
Fixpoint strings_Contains (s substr : string) : bool :=
  String.prefix substr s
  || match s with
     | EmptyString => false
     | String _ rest => strings_Contains rest substr
     end.

Section External.

Variable Equal : host -> host -> bool.
Variable Less : host -> host -> bool.
Variable Sprint : host -> string.

Definition valueEmbed_Equal (other : Value) : bool := false.
Definition valueEmbed_Less (other : Value) : bool := false.

(** [return Equal(v.basis, other.Interface())] *)
Definition wrapperValue_Equal (basis : host) (other : Value) : bool :=
  Equal basis (Interface other).

(** [return Less(v.basis, other.Interface())] *)
Definition wrapperValue_Less (basis : host) (other : Value) : bool :=
  Less basis (Interface other).

Definition Value_Equal (v other : Value) : bool :=
  match v with
  | wrapperValue b | arrayValue b | mapValue b | stringValue b
  | structValue b => wrapperValue_Equal b other
  | valueEmbed => valueEmbed_Equal other
  end.

Definition Value_Less (v other : Value) : bool :=
  match v with
  | wrapperValue b | arrayValue b | mapValue b | stringValue b
  | structValue b => wrapperValue_Less b other
  | valueEmbed => valueEmbed_Less other
  end.

(** The loop of [arrayValue.Contains] from index [i], with [remaining]
    elements to go:
    [for ...; i < len; i++ { if Equal(rv.Index(i).Interface(), e) { return true } }]
    and [return false] after it. *)
Fixpoint arrayValue_Contains_loop (rv : rValue) (e : host) (i : Z)
         (remaining : nat) : result bool :=
  match remaining with
  | O => Ok false
  | S r =>
      x <- RV.Index rv i ;;
      x <- RV.Interface x ;;
      if Equal x e then Ok true
      else arrayValue_Contains_loop rv e (i + 1) r
  end.

(** [func (v arrayValue) Contains(elem Value) bool] *)
Definition arrayValue_Contains (basis : host) (elem : Value) : result bool :=
  let rv := RV.ValueOf basis in
  let e := Interface elem in
  len <- RV.Len rv ;;
  arrayValue_Contains_loop rv e 0 (Z.to_nat len).

(** [func (v stringValue) Contains(substr Value) bool].  Both type
    assertions admit the predeclared [string] type only: another probe
    is printed with [fmt.Sprint], another basis panics. *)
Definition stringValue_Contains (basis : host) (substr : Value)
  : result bool :=
  let s := match Interface substr with
           | HString None s => s
           | x => Sprint x
           end in
  match basis with
  | HString None text => Ok (strings_Contains text s)
  | _ => Panic (runtimeError "interface conversion: interface {} is not string")
  end.

Definition Contains (v elem : Value) : result bool :=
  match v with
  | wrapperValue b => wrapperValue_Contains b elem
  | arrayValue b => arrayValue_Contains b elem
  | mapValue b => mapValue_Contains b elem
  | stringValue b => stringValue_Contains b elem
  | structValue b => structValue_Contains b elem
  | valueEmbed => valueEmbed_Contains elem
  end.

End External.

(** ** Predicates used in the statements *)

(** The pointer path of a datum ends in a nil pointer to a type that is
    no struct: [ValueOf] follows such pointers one after the other. *)
Fixpoint nil_target (x : host) : bool :=
  match x with
  | HPtr _ e t =>
      if Reflect.Kind_eqb (Reflect.Type_Kind e) Reflect.Struct then false
      else match t with
           | Some (_, y) => nil_target y
           | None => true
           end
  | _ => false
  end.

(** The datum is one of the evaluator's Values, or a pointer path that
    [ValueOf] follows leads to one. *)
Fixpoint holds_Value (x : host) : bool :=
  match x with
  | HValue _ => true
  | HPtr _ e (Some (_, y)) =>
      if Reflect.Kind_eqb (Reflect.Type_Kind e) Reflect.Struct then false
      else holds_Value y
  | _ => false
  end.

(** The datum is a pointer to a value that is no record. *)
Definition pointer_to_non_record (x : host) : bool :=
  match x with
  | HPtr _ e _ => negb (Reflect.Kind_eqb (Reflect.Type_Kind e) Reflect.Struct)
  | _ => false
  end.

Definition is_Value (x : host) : bool :=
  match x with HValue _ => true | _ => false end.

(** The elements of an array or slice; a nil slice has none. *)
Definition seq_elems (x : host) : option (list host) :=
  match x with
  | HArray _ _ l => Some l
  | HSlice _ _ (Some l) => Some l
  | HSlice _ _ None => Some []
  | _ => None
  end.

(** The variant kinds of the data model. *)
Inductive variant : Set :=
| Nil | Boolean | Number | Text | Sequence | Mapping | Record | Inert.

(** The variant of a Value: which implementation it is, and for a plain
    wrapper what it wraps. *)
Definition variant_of (v : Value) : variant :=
  match v with
  | arrayValue _ => Sequence
  | mapValue _ => Mapping
  | stringValue _ => Text
  | structValue _ => Record
  | valueEmbed => Inert
  | wrapperValue b =>
      if is_nil b then Nil
      else if eq_bool b true || eq_bool b false then Boolean
      else if (Reflect.Kind_num (KindOf b) <=? Reflect.Kind_num Reflect.Float64)%nat
           then Number
           else Inert
  end.

(** The basis is of the kind the implementation works on: an array or
    slice under [arrayValue], a map under [mapValue], a string under
    [stringValue], a struct or a pointer to a struct type under
    [structValue], and none of these, nor another pointer, under a plain
    [wrapperValue]. *)
Definition Value_ok (v : Value) : bool :=
  match v with
  | arrayValue b =>
      match KindOf b with
      | Reflect.Array | Reflect.Slice => true
      | _ => false
      end
  | mapValue b => Reflect.Kind_eqb (KindOf b) Reflect.Map
  | stringValue b => Reflect.Kind_eqb (KindOf b) Reflect.String
  | structValue b =>
      match b with
      | HStruct _ _ _ => true
      | HPtr _ e _ => Reflect.Kind_eqb (Reflect.Type_Kind e) Reflect.Struct
      | _ => false
      end
  | wrapperValue b =>
      match KindOf b with
      | Reflect.Array | Reflect.Slice | Reflect.Map | Reflect.String
      | Reflect.Struct | Reflect.Ptr => false
      | _ => true
      end
  | valueEmbed => false
  end.

(** The datum at the end of the pointer path [ValueOf] follows. *)
Fixpoint pointer_end (x : host) : host :=
  match x with
  | HPtr _ e (Some (_, y)) =>
      if Reflect.Kind_eqb (Reflect.Type_Kind e) Reflect.Struct then x
      else pointer_end y
  | _ => x
  end.

(** A struct type with these fields and methods declares the name as a
    field or as a method on the value receiver. *)
Definition declares (fs : list StructField) (ms : list Method)
           (name : string) : bool :=
  existsb (fun f => Reflect.sf_Name f =? name) fs
  || existsb (fun m => negb (Reflect.m_ptr_receiver m)
                       && (Reflect.m_Name m =? name)) ms.

(** The kinds [IsNil] is defined on. *)
Definition nillable (k : Kind) : bool :=
  match k with
  | Reflect.Chan | Reflect.Func | Reflect.Interface | Reflect.Map
  | Reflect.Ptr | Reflect.Slice | Reflect.UnsafePointer => true
  | _ => false
  end.

(** ** Facts about package [reflect] as modelled *)

Lemma Kind_eqb_eq (a b : Kind) : Reflect.Kind_eqb a b = true <-> a = b.
Proof.
  unfold Reflect.Kind_eqb.
  destruct (Reflect.Kind_eq_dec a b); split; congruence.
Qed.

Lemma Type_eqb_eq (a b : Type_) : Reflect.Type_eqb a b = true <-> a = b.
Proof.
  unfold Reflect.Type_eqb.
  destruct (Reflect.Type_eq_dec a b); split; congruence.
Qed.

Lemma Type_Kind_named (n : option string) (t : Type_) :
  Reflect.Type_Kind (named n t) = Reflect.Type_Kind t.
Proof. destruct n; reflexivity. Qed.

(** [KindOf] is the kind of the dynamic type. *)
Lemma TypeOf_Kind (x : host) (t : Type_) :
  TypeOf x = Some t -> Reflect.Type_Kind t = KindOf x.
Proof.
  destruct x; simpl; intros E; inversion E; subst;
    rewrite ?Type_Kind_named; reflexivity.
Qed.

(** The method set of a struct type is part of its pointer type's. *)
Lemma method_set_pointer (name : string) (fs : list StructField)
      (ms : list Method) (m : string) :
  Reflect.Type_MethodByName (Reflect.TPtr (Reflect.TStruct name fs ms)) m = None ->
  Reflect.Type_MethodByName (Reflect.TStruct name fs ms) m = None.
Proof.
  unfold Reflect.Type_MethodByName; simpl.
  induction ms as [|d ms IH]; simpl; [reflexivity|].
  destruct (Reflect.m_Name d =? m) eqn:E; [discriminate|].
  intros H. destruct (negb (Reflect.m_ptr_receiver d)); simpl; rewrite ?E; auto.
Qed.

(** Induction along the pointer path of a datum. *)
Lemma host_pointer_ind (P : host -> Prop) :
  (forall x, (forall n e a t, x = HPtr n e (Some (a, t)) -> P t) -> P x) ->
  forall x, P x.
Proof.
  intros step. fix IH 1. intros x. apply step.
  destruct x as [ | | | | | | | | | |n e [[a t]|]| | | | ];
    intros n' e' a' t' E; try discriminate E.
  injection E as _ _ _ <-. apply IH.
Qed.

(** ** Classification *)

Lemma ValueOf_Value (v : Value) : ValueOf (HValue v) = Ok v.
Proof. reflexivity. Qed.

(** [ValueOf] follows a pointer to a type that is no struct to its
    target, as [ValueOf(rv.Elem().Interface())] does. *)
Lemma ValueOf_pointer (n : option string) (e : Type_)
      (t : option (Z * host)) :
  Reflect.Kind_eqb (Reflect.Type_Kind e) Reflect.Struct = false ->
  ValueOf (HPtr n e t)
  = (target <- RV.Elem (RV.ValueOf (HPtr n e t)) ;;
     x <- RV.Interface target ;;
     ValueOf x).
Proof.
  intros E. simpl. rewrite E. destruct t as [[a t]|]; simpl; [|reflexivity].
  destruct (Reflect.Type_Kind e); reflexivity.
Qed.

Ltac by_kind :=
  repeat match goal with
         | k : IntKind |- _ => destruct k
         | k : FloatKind |- _ => destruct k
         | k : ComplexKind |- _ => destruct k
         | n : option string |- _ => destruct n
         | b : bool |- _ => destruct b
         end.

(** A datum that is no Value and no pointer to a non-record is wrapped
    as it is. *)
Lemma ValueOf_wraps (x : host) :
  is_Value x = false ->
  pointer_to_non_record x = false ->
  exists v, ValueOf x = Ok v /\ Interface v = x.
Proof.
  intros NV NP.
  destruct x; simpl in *; try discriminate NV;
    try (by_kind; simpl; eexists; split; reflexivity).
  apply negb_false_iff in NP. rewrite NP.
  eexists; split; reflexivity.
Qed.

(** When [ValueOf] returns. *)
Lemma ValueOf_returns_when (x : host) :
  (exists v, ValueOf x = Ok v) <-> nil_target x = false.
Proof.
  induction x as [x IH] using host_pointer_ind.
  destruct (pointer_to_non_record x) eqn:NP.
  - destruct x; try discriminate NP. simpl in NP.
    apply negb_true_iff in NP. simpl. rewrite NP.
    destruct target as [[a t]|].
    + apply (IH name e a t eq_refl).
    + split; [intros [v H]; discriminate H | discriminate].
  - destruct (is_Value x) eqn:NV.
    + destruct x; try discriminate NV. simpl. split; eauto.
    + destruct (ValueOf_wraps x NV NP) as [v [H _]].
      split; [intros _ | eauto].
      destruct x; try reflexivity. simpl in NP |- *.
      apply negb_false_iff in NP. rewrite NP. reflexivity.
Qed.

(** X1. On a datum whose pointer path is finite, as every datum of this
    model is, [ValueOf] returns exactly when that path does not end in a
    nil pointer to a non-record.  (On a pointer that reaches itself the
    recursion of value.go does not end; such data are outside the
    model.) *)
Lemma ValueOf_returns_iff (x : host) :
  (exists v, ValueOf x = Ok v) <-> nil_target x = false.
Proof. exact (ValueOf_returns_when x). Qed.

(** C8. Classification is idempotent: a datum that is already a Value is
    returned unchanged, and so classifying the result of a classification
    gives that result again, for every datum (a classification that
    panics has no result to classify). *)
Theorem ValueOf_idempotent :
  (forall v : Value, ValueOf (HValue v) = Ok v)
  /\ (forall x : host, (v <- ValueOf x ;; ValueOf (HValue v)) = ValueOf x).
Proof.
  split; [reflexivity|].
  intros x. destruct (ValueOf x) as [v|p]; reflexivity.
Qed.

(** C10. Unwrap round trip: for every datum [x] that is not itself a
    Value and not a pointer to a non-record, [ValueOf x] returns a Value
    whose [Interface()] is [x] itself; this covers nil, true, false and a
    pointer to a record, which is kept as the pointer. *)
Theorem Interface_ValueOf_roundtrip (x : host) :
  is_Value x = false ->
  pointer_to_non_record x = false ->
  exists v, ValueOf x = Ok v /\ Interface v = x.
Proof. exact (ValueOf_wraps x). Qed.

(** A pointer to a one-field record, a witness of C10's hypotheses. *)
Definition sample_record : host :=
  HStruct "Page" [(Reflect.mkField "Title" true Reflect.String,
                   HString None "home")] [].

Definition sample_record_type : Type_ :=
  Reflect.TStruct "Page" [Reflect.mkField "Title" true Reflect.String] [].

Lemma Interface_ValueOf_roundtrip_witness :
  exists v,
    ValueOf (HPtr None sample_record_type (Some (4096%Z, sample_record))) = Ok v
    /\ Interface v = HPtr None sample_record_type (Some (4096%Z, sample_record)).
Proof.
  apply (Interface_ValueOf_roundtrip
           (HPtr None sample_record_type (Some (4096%Z, sample_record))));
    reflexivity.
Defined.

(** C4, at the input the code fails on: classifying a nil pointer to a
    type that is no struct, here a nil pointer to [int], panics inside
    [rv.Elem().Interface()], and so does a pointer to such a pointer. *)
Theorem ValueOf_nil_pointer_panics :
  ValueOf (HPtr None (Reflect.TBasic Reflect.Int) None)
  = Panic (reflectPanic "reflect: call of reflect.Value.Interface on zero Value")
  /\ ValueOf (HPtr None (Reflect.TPtr (Reflect.TBasic Reflect.Int))
                (Some (4096%Z, HPtr None (Reflect.TBasic Reflect.Int) None)))
     = Panic (reflectPanic "reflect: call of reflect.Value.Interface on zero Value").
Proof. split; reflexivity. Qed.

Lemma Test_false_wrapper (b : host) :
  Test (wrapperValue b) = false <->
  wrapperValue b = nilValue \/ wrapperValue b = falseValue.
Proof.
  unfold nilValue, falseValue. simpl. unfold wrapperValue_Test.
  destruct b; by_kind; simpl; split; intros H;
    try discriminate H; try (destruct H as [H|H]; discriminate H); auto.
Qed.

(** C6, amended.  For every classified value (the result of [ValueOf]
    on a datum that holds no Value of its own), [Test()] is false exactly
    when the value is Nil or the false of the predeclared type [bool],
    that is [nilValue] or [falseValue]; [valueEmbed], sequences,
    mappings, strings and numbers test true whatever they hold, the
    empty ones and 0 included, and so does every boolean of a defined
    type, false included. *)
Theorem Test_false_iff_nil_or_false :
  (forall (x : host) (v : Value),
      holds_Value x = false ->
      ValueOf x = Ok v ->
      (Test v = false <-> v = nilValue \/ v = falseValue))
  /\ Test valueEmbed = true
  /\ (forall n e l, (v <- ValueOf (HSlice n e l) ;; Ok (Test v)) = Ok true)
  /\ (forall n e l, (v <- ValueOf (HArray n e l) ;; Ok (Test v)) = Ok true)
  /\ (forall n k e m, (v <- ValueOf (HMap n k e m) ;; Ok (Test v)) = Ok true)
  /\ (forall n s, (v <- ValueOf (HString n s) ;; Ok (Test v)) = Ok true)
  /\ (forall n k z, (v <- ValueOf (HInt n k z) ;; Ok (Test v)) = Ok true)
  /\ (forall n k z, (v <- ValueOf (HFloat n k z) ;; Ok (Test v)) = Ok true)
  /\ (forall name b,
         (v <- ValueOf (HBool (Some name) b) ;; Ok (Test v)) = Ok true).
Proof.
  split; [|repeat split; intros; by_kind; reflexivity].
  induction x as [x IH] using host_pointer_ind.
  intros v HV E.
  destruct (pointer_to_non_record x) eqn:NP.
  - destruct x; try discriminate NP. simpl in NP.
    apply negb_true_iff in NP. simpl in HV, E. rewrite NP in HV, E.
    destruct target as [[a t]|]; [|discriminate E].
    apply (IH name e a t eq_refl v HV E).
  - assert (NV : is_Value x = false) by (destruct x; auto; discriminate HV).
    destruct x; try discriminate NV; simpl in NP, E;
      try (apply negb_false_iff in NP; rewrite NP in E);
      try (by_kind; simpl in E; inversion E; subst;
           first [ apply Test_false_wrapper
                 | simpl; unfold nilValue, falseValue; split; intros H;
                   [discriminate H | destruct H as [H|H]; discriminate H] ]).
Qed.

(** C6 as stated fails: the false of a defined boolean type
    ([type Flag bool]) is a boolean false, yet its classification tests
    true; [case false] in [ValueOf] and [v.basis != false] in [Test]
    compare with the false of the predeclared type only. *)
Lemma Test_of_defined_false_is_true :
  ValueOf (HBool (Some "Flag") false)
  = Ok (wrapperValue (HBool (Some "Flag") false))
  /\ Test (wrapperValue (HBool (Some "Flag") false)) = true.
Proof. split; reflexivity. Qed.

Lemma Test_false_iff_nil_or_false_witness :
  Test (wrapperValue (HBool None false)) = false <->
  wrapperValue (HBool None false) = nilValue
  \/ wrapperValue (HBool None false) = falseValue.
Proof.
  apply (proj1 Test_false_iff_nil_or_false (HBool None false));
    reflexivity.
Defined.

(** ** Integer conversion *)

(** The value a failed [Int()] reports: the basis, and for [valueEmbed]
    the receiver itself. *)
Definition conversion_subject (v : Value) : host :=
  match v with
  | valueEmbed => HValue valueEmbed
  | _ => Interface v
  end.

(** C7 as stated fails: the Value that wraps [int64(7)], an
    integer-typed datum, does not answer [Int()] with 7; the type
    assertion [v.basis.(int)] fails and the call panics. *)
Lemma Int_of_int64_panics :
  (v <- ValueOf (HInt None KInt64 7) ;; Int v)
  = Panic (errorValue (conversionError "" (HInt None KInt64 7)
             (Reflect.TBasic Reflect.Int))).
Proof. reflexivity. Qed.

(** C7, amended. [Int()] returns the integer exactly for a Value that
    wraps a datum of the predeclared type [int], and for no other: for
    every other basis (another integer width, a defined integer type, a
    float such as 3.5, a non-number) it panics with a conversion error
    that carries the value and the target type [int]. *)
Theorem Int_exact_for_int_only :
  (forall n : Z, (v <- ValueOf (HInt None KInt n) ;; Int v) = Ok n)
  /\ (forall (v : Value) (n : Z),
         Int v = Ok n <-> Interface v = HInt None KInt n)
  /\ (forall v : Value,
         (forall n : Z, Interface v <> HInt None KInt n) ->
         Int v = Panic (errorValue (conversionError "" (conversion_subject v)
                          (Reflect.TBasic Reflect.Int)))).
Proof.
  split; [reflexivity|]. split.
  - intros v n. destruct v as [b|b|b|b|b| ]; simpl;
      try (unfold wrapperValue_Interface; destruct b; by_kind; simpl;
           split; intros H; inversion H; subst; reflexivity).
    unfold valueEmbed_Int, valueEmbed_Interface. split; discriminate.
  - intros v H. destruct v as [b|b|b|b|b| ]; simpl in *;
      try reflexivity;
      unfold wrapperValue_Interface in H; destruct b; by_kind;
        try reflexivity; exfalso; eapply H; reflexivity.
Qed.

(** 3.5 as a float64 (bit pattern 0x400C000000000000) has no [Int()]. *)
Lemma Int_exact_for_int_only_witness :
  Int (wrapperValue (HFloat None KFloat64 4615063718147915776))
  = Panic (errorValue (conversionError ""
             (HFloat None KFloat64 4615063718147915776)
             (Reflect.TBasic Reflect.Int))).
Proof.
  apply (proj2 (proj2 Int_exact_for_int_only)
           (wrapperValue (HFloat None KFloat64 4615063718147915776))).
  intros n H. discriminate H.
Defined.

(** ** Sequences *)

Lemma wrap_int_small (z : Z) :
  (int_min <= z <= int_max)%Z -> wrap_int z = z.
Proof.
  unfold int_min, int_max, wrap_int.
  change (2 ^ 63)%Z with 9223372036854775808%Z.
  change (2 ^ 64)%Z with 18446744073709551616%Z.
  intros H. rewrite Z.mod_small; lia.
Qed.

Lemma concrete_ValueOf (x : host) :
  is_nil x = false -> RV.concrete (RV.ValueOf x) = Some x.
Proof. destruct x; by_kind; try discriminate; reflexivity. Qed.

Lemma Len_seq (b : host) (l : list host) :
  seq_elems b = Some l ->
  RV.Len (RV.ValueOf b) = Ok (Z.of_nat (List.length l)).
Proof.
  destruct b; try discriminate; simpl.
  - intros E; inversion E; reflexivity.
  - destruct elems; intros E; inversion E; reflexivity.
Qed.

Lemma element_seq (b : host) (l : list host) (j : Z) (x : host) :
  seq_elems b = Some l ->
  RV.nth_Z l j = Some x ->
  element (RV.ValueOf b) j = ValueOf x.
Proof.
  unfold element.
  destruct b; try discriminate; cbn -[RV.nth_Z].
  - intros E; inversion E; subst. intros ->. reflexivity.
  - destruct elems; intros E; inversion E; subst.
    + intros ->. reflexivity.
    + unfold RV.nth_Z. destruct (j <? 0)%Z; [discriminate|].
      destruct (Z.to_nat j); discriminate.
Qed.

Lemma nth_Z_inside {A : Type} (l : list A) (j : Z) :
  (0 <= j < Z.of_nat (List.length l))%Z -> exists x, RV.nth_Z l j = Some x.
Proof.
  intros H. unfold RV.nth_Z.
  destruct (Z.ltb_spec j 0); [lia|].
  destruct (nth_error l (Z.to_nat j)) eqn:E; [eauto|].
  apply nth_error_None in E. lia.
Qed.

Lemma nth_Z_outside {A : Type} (l : list A) (j : Z) :
  ~ (0 <= j < Z.of_nat (List.length l))%Z -> RV.nth_Z l j = None.
Proof.
  intros H. unfold RV.nth_Z.
  destruct (Z.ltb_spec j 0); [reflexivity|].
  apply nth_error_None. lia.
Qed.

(** The index a sequence is read at: a negative index counts from the
    end. *)
Definition from_end (n i : Z) : Z := if (i <? 0)%Z then i + n else i.

(** [arrayValue.IndexValue] reads the element at [from_end n i], and
    gives Nil when there is none. *)
Lemma arrayValue_IndexValue_spec (b : host) (l : list host)
      (index : Value) (i : Z) :
  seq_elems b = Some l ->
  (Z.of_nat (List.length l) <= int_max)%Z ->
  Interface index = HInt None KInt i ->
  (int_min <= i <= int_max)%Z ->
  arrayValue_IndexValue b index
  = match RV.nth_Z l (from_end (Z.of_nat (List.length l)) i) with
    | Some x => ValueOf x
    | None => Ok nilValue
    end.
Proof.
  intros S L I R. unfold arrayValue_IndexValue, from_end.
  rewrite I, (Len_seq b l S). simpl.
  set (n := Z.of_nat (List.length l)) in *.
  assert (0 <= n)%Z by (subst n; lia).
  destruct (Z.ltb_spec i 0) as [Neg|Pos]; simpl.
  - rewrite wrap_int_small by (unfold int_min, int_max in *; lia).
    destruct (Z.leb_spec 0 (i + n)); simpl.
    + destruct (Z.ltb_spec (i + n) n); [|lia].
      destruct (nth_Z_inside l (i + n)) as [x E]; [subst n; lia|].
      rewrite E. apply (element_seq b l _ x S E).
    + rewrite nth_Z_outside by (subst n; lia). reflexivity.
  - destruct (Z.leb_spec 0 i); [|lia]. simpl.
    destruct (Z.ltb_spec i n).
    + destruct (nth_Z_inside l i) as [x E]; [subst n; lia|].
      rewrite E. apply (element_seq b l _ x S E).
    + rewrite nth_Z_outside by (subst n; lia). reflexivity.
Qed.


Section Lookups.

Variable call : callee -> outcome.


(** *** Pseudo-properties of sequences and strings *)

Lemma ValueOf_int (n : Z) :
  ValueOf (HInt None KInt n) = Ok (wrapperValue (HInt None KInt n)).
Proof. reflexivity. Qed.

(** The pseudo-properties of a sequence. *)
Lemma arrayValue_PropertyValue_eq (b : host) (l : list host)
      (index : Value) :
  seq_elems b = Some l ->
  (Z.of_nat (List.length l) <= int_max)%Z ->
  PropertyValue call (arrayValue b) index
  = if eq_string (Interface index) firstKey then
      match l with
      | [] => Ok nilValue
      | x :: _ => ValueOf x
      end
    else if eq_string (Interface index) lastKey then
      match l with
      | [] => Ok nilValue
      | _ :: _ => ValueOf (last l HNil)
      end
    else if eq_string (Interface index) sizeKey then
      Ok (wrapperValue (HInt None KInt (Z.of_nat (List.length l))))
    else Ok nilValue.
Proof.
  intros S L. simpl. unfold arrayValue_PropertyValue.
  rewrite (Len_seq b l S).
  destruct (eq_string (Interface index) firstKey).
  { destruct l as [|x r]; [reflexivity|].
    cbn [bind]. change (0 <? Z.of_nat (List.length (x :: r)))%Z with true.
    apply (element_seq b (x :: r) 0 x S). reflexivity. }
  destruct (eq_string (Interface index) lastKey).
  { destruct l as [|x r]; [reflexivity|].
    cbn [bind]. change (0 <? Z.of_nat (List.length (x :: r)))%Z with true.
    cbn iota.
    rewrite wrap_int_small
      by (unfold int_min, int_max in *; simpl List.length in *; lia).
    apply (element_seq b (x :: r) _ _ S).
    unfold RV.nth_Z.
    destruct (Z.ltb_spec (Z.of_nat (List.length (x :: r)) - 1) 0);
      [simpl List.length in *; lia|].
    replace (Z.to_nat (Z.of_nat (List.length (x :: r)) - 1))
      with (List.length r) by (simpl List.length; lia).
    clear. revert x. induction r as [|y r IH]; intros x; [reflexivity|].
    simpl nth_error. rewrite (IH y). reflexivity. }
  destruct (eq_string (Interface index) sizeKey); reflexivity.
Qed.

(** X9. A sequence answers [first], [last] and [size], and no other
    name; [first] and [last] are Nil on an empty sequence. *)
Lemma arrayValue_PropertyValue_spec (b : host) (l : list host)
      (index : Value) :
  seq_elems b = Some l ->
  (Z.of_nat (List.length l) <= int_max)%Z ->
  PropertyValue call (arrayValue b) index
  = if eq_string (Interface index) firstKey then
      match l with
      | [] => Ok nilValue
      | x :: _ => ValueOf x
      end
    else if eq_string (Interface index) lastKey then
      match l with
      | [] => Ok nilValue
      | _ :: _ => ValueOf (last l HNil)
      end
    else if eq_string (Interface index) sizeKey then
      Ok (wrapperValue (HInt None KInt (Z.of_nat (List.length l))))
    else Ok nilValue.
Proof. exact (arrayValue_PropertyValue_eq b l index). Qed.

(** A string of the predeclared type answers [size], its length in
    bytes, and no other name. *)
Lemma stringValue_PropertyValue_spec (s : string) (index : Value) :
  PropertyValue call (stringValue (HString None s)) index
  = if eq_string (Interface index) sizeKey
    then Ok (wrapperValue (HInt None KInt (Z.of_nat (String.length s))))
    else Ok nilValue.
Proof.
  simpl. unfold stringValue_PropertyValue.
  destruct (eq_string (Interface index) sizeKey); reflexivity.
Qed.

End Lookups.

(** ** Mappings *)

Lemma Typ_ValueOf (x : host) (t : Type_) :
  TypeOf x = Some t -> RV.Typ (RV.ValueOf x) = Ok t.
Proof.
  destruct x; try discriminate; by_kind; simpl; intros E; rewrite ?E;
    inversion E; reflexivity.
Qed.

Lemma Type_Key_map (n : option string) (kt et : Type_) :
  Type_Key (named n (Reflect.TMap kt et)) = Ok kt.
Proof. destruct n; reflexivity. Qed.

Lemma Type_eqb_neq (a b : Type_) : a <> b -> Reflect.Type_eqb a b = false.
Proof.
  intros H. destruct (Reflect.Type_eqb a b) eqn:E; [|reflexivity].
  apply Type_eqb_eq in E. contradiction.
Qed.

(** X2. Indexing and membership check the probe's type first: a probe whose
    dynamic type is not the map's key type gives Nil and false, and the
    map is not consulted. *)
Lemma mapValue_lookup_type_mismatch (n : option string) (kt et : Type_)
      (entries : option (list (host * host))) (index : Value) (t : Type_) :
  TypeOf (Interface index) = Some t ->
  kt <> t ->
  mapValue_IndexValue (HMap n kt et entries) index = Ok nilValue
  /\ mapValue_Contains (HMap n kt et entries) index = Ok false.
Proof.
  intros T D. unfold mapValue_IndexValue, mapValue_Contains.
  rewrite (Typ_ValueOf _ _ T).
  rewrite (Typ_ValueOf (HMap n kt et entries) _ eq_refl).
  cbn [bind]. rewrite Type_Key_map. cbn [bind].
  rewrite (Type_eqb_neq kt t D). split; reflexivity.
Qed.

(** X19. A probe that holds nothing (Nil) has no type to check:
    indexing a mapping with it, and asking whether the mapping contains
    it, panic in [iv.Type()]. *)
Lemma mapValue_lookup_nil_probe (n : option string) (kt et : Type_)
      (entries : option (list (host * host))) (index : Value) :
  Interface index = HNil ->
  mapValue_IndexValue (HMap n kt et entries) index
  = Panic (reflectPanic "reflect: call of reflect.Value.Type on zero Value")
  /\ mapValue_Contains (HMap n kt et entries) index
     = Panic (reflectPanic "reflect: call of reflect.Value.Type on zero Value").
Proof.
  intros E. unfold mapValue_IndexValue, mapValue_Contains. rewrite E.
  rewrite (Typ_ValueOf (HMap n kt et entries) _ eq_refl).
  cbn [bind]. rewrite Type_Key_map. split; reflexivity.
Qed.



Lemma MapIndex_ValueOf (n : option string) (kt et : Type_)
      (entries : option (list (host * host))) (x : host) (t : Type_) :
  TypeOf x = Some t ->
  RV.MapIndex (RV.ValueOf (HMap n kt et entries)) (RV.ValueOf x)
  = if RV.assignable kt t then
      if hashable x then
        match entries with
        | Some m =>
            match RV.lookup m (RV.retype kt x) with
            | Some e => Ok (Val (Reflect.Type_Kind et) false e)
            | None => Ok Zero
            end
        | None => Ok Zero
        end
      else Panic (runtimeError "hash of unhashable type")
    else Panic (reflectPanic "reflect.Value.MapIndex: value is not assignable to the key type").
Proof.
  intros T. destruct x; try discriminate T; simpl RV.ValueOf;
    unfold RV.MapIndex; cbn [RV.concrete Reflect.Kind_eqb];
    simpl RV.concrete; rewrite T; reflexivity.
Qed.

Section MapProperties.

Variable call : callee -> outcome.

(** X12. Property access does not check the probe's type: under a key
    type that is no interface type, a probe whose type cannot be assigned
    to the key type makes [rv.MapIndex(iv)] panic. *)
Lemma mapValue_PropertyValue_unassignable (n : option string)
      (kt et : Type_) (entries : option (list (host * host)))
      (index : Value) (t : Type_) :
  TypeOf (Interface index) = Some t ->
  Reflect.Kind_eqb (Reflect.Type_Kind kt) Reflect.Interface = false ->
  RV.assignable kt t = false ->
  PropertyValue call (mapValue (HMap n kt et entries)) index
  = Panic (reflectPanic "reflect.Value.MapIndex: value is not assignable to the key type").
Proof.
  intros T _ A. simpl. unfold mapValue_PropertyValue, wrapperValue_Interface.
  rewrite (MapIndex_ValueOf n kt et entries _ t T), A. reflexivity.
Qed.


(** The map [map[string]int{"a": 1}] and the integer probe 5. *)
Definition ages : host :=
  HMap None (Reflect.TBasic Reflect.String) (Reflect.TBasic Reflect.Int)
       (Some [(HString None "a", HInt None KInt 1)]).

(** C1, at the input the code fails on.  On [map[string]int{"a": 1}]
    with the probe 5, whose type [int] is not the key type: indexing
    gives Nil and membership false, as claimed, but property access
    panics in [rv.MapIndex(iv)], which [mapValue.PropertyValue] calls
    without the type check of its two siblings. *)
Theorem mapValue_PropertyValue_wrong_key_type_panics :
  ValueOf ages = Ok (mapValue ages)
  /\ ValueOf (HInt None KInt 5) = Ok (wrapperValue (HInt None KInt 5))
  /\ IndexValue call (mapValue ages) (wrapperValue (HInt None KInt 5))
     = Ok nilValue
  /\ mapValue_Contains ages (wrapperValue (HInt None KInt 5)) = Ok false
  /\ PropertyValue call (mapValue ages) (wrapperValue (HInt None KInt 5))
     = Panic (reflectPanic "reflect.Value.MapIndex: value is not assignable to the key type").
Proof. repeat split; reflexivity. Qed.

(** The map [map[int]string{1: "a"}]. *)
Definition labels : host :=
  HMap None (Reflect.TBasic Reflect.Int) (Reflect.TBasic Reflect.String)
       (Some [(HInt None KInt 1, HString None "a")]).

(** C9, at the input the code fails on.  On [map[int]string{1: "a"}]
    the name [size] is no key, yet it is not answered with the entry
    count: the name is a string, which cannot be assigned to the key
    type [int], and [rv.MapIndex(iv)] panics before the fallback is
    reached. *)
Theorem mapValue_size_on_int_keys_panics :
  ValueOf labels = Ok (mapValue labels)
  /\ ValueOf (HString None sizeKey) = Ok (stringValue (HString None sizeKey))
  /\ PropertyValue call (mapValue labels) (stringValue (HString None sizeKey))
     = Panic (reflectPanic "reflect.Value.MapIndex: value is not assignable to the key type").
Proof. repeat split; reflexivity. Qed.

End MapProperties.

(** ** Records and the invocation bridge *)

Section Accessors.

Variable call : callee -> outcome.

(** An unset member: [fv.IsNil()] answers and the call is skipped. *)
Lemma invoke_nil_member (n : option string) (numIn numOut : nat)
      (ro : bool) :
  invoke call (Val Reflect.Func ro (HFunc n numIn numOut None)) = Ok nilValue.
Proof. reflexivity. Qed.

(** X4. A member that takes an argument or returns more than two
    results is not called, and Nil is returned. *)
Lemma invoke_malformed_member (n : option string) (numIn numOut : nat)
      (ro : bool) (c : callee) :
  (0 < numIn \/ 2 < numOut)%nat ->
  invoke call (Val Reflect.Func ro (HFunc n numIn numOut (Some c)))
  = Ok nilValue.
Proof.
  intros H. unfold invoke. simpl. destruct n; simpl;
    (destruct (Nat.ltb_spec 0 numIn); simpl; [reflexivity|];
     destruct (Nat.ltb_spec 2 numOut); simpl; [reflexivity|lia]).
Qed.

(** X5. A member of the contract that returns a second result that is
    not nil: the call panics with that result, unchanged. *)
Lemma invoke_failure_propagates (n : option string) (numOut : nat)
      (c : callee) (r0 : Kind * host) (k1 : Kind) (x1 : host)
      (rest : list (Kind * host)) :
  (numOut <= 2)%nat ->
  call c = Returns (r0 :: (k1, x1) :: rest) ->
  RV.IsNil (Val k1 false x1) = Ok false ->
  invoke call (Val Reflect.Func false (HFunc n 0 numOut (Some c)))
  = Panic (panicValue x1).
Proof.
  intros O C N. unfold invoke.
  change (RV.IsNil (Val Reflect.Func false (HFunc n 0 numOut (Some c))))
    with (@Ok bool false).
  destruct n; cbn -[RV.IsNil Nat.ltb];
    (destruct (Nat.ltb_spec 2 numOut); [lia|]; cbn -[RV.IsNil];
     rewrite C; cbn -[RV.IsNil]; rewrite N; reflexivity).
Qed.

(** X6. A member of the contract that returns one result, or two with
    the second nil: the first result is classified and returned. *)
Lemma invoke_first_result (n : option string) (numOut : nat) (c : callee)
      (k0 : Kind) (x0 : host) (more : list (Kind * host)) :
  (numOut <= 2)%nat ->
  call c = Returns ((k0, x0) :: more) ->
  match more with
  | [] => True
  | (k1, x1) :: _ => RV.IsNil (Val k1 false x1) = Ok true
  end ->
  invoke call (Val Reflect.Func false (HFunc n 0 numOut (Some c)))
  = ValueOf x0.
Proof.
  intros O C N. unfold invoke.
  change (RV.IsNil (Val Reflect.Func false (HFunc n 0 numOut (Some c))))
    with (@Ok bool false).
  destruct n; cbn -[RV.IsNil Nat.ltb];
    (destruct (Nat.ltb_spec 2 numOut); [lia|]; cbn -[RV.IsNil];
     rewrite C; destruct more as [|[k1 x1] rest]; cbn -[RV.IsNil];
     [reflexivity|]; rewrite N; reflexivity).
Qed.

(** A record whose method [Touch] takes no argument and returns
    nothing, and an application that runs it. *)
Definition door : host :=
  HStruct "Door" [] [Reflect.mkMethod "Touch" false 0 0].

End Accessors.

Definition run_Touch (c : callee) : outcome := Returns [].

(** C2, at the input the code fails on.  The method [Touch] of [door]
    meets the contract (no argument, at most two results) and signals no
    failure, yet the call does not return: it has no first result, and
    [results[0]] panics with an index out of range. *)
Theorem invoke_without_result_panics :
  ValueOf door = Ok (structValue door)
  /\ PropertyValue run_Touch (structValue door)
       (stringValue (HString None "Touch"))
     = Panic (runtimeError "index out of range")
  /\ invoke run_Touch
       (Val Reflect.Func false
          (HFunc None 0 0 (Some (BoundMethod door "Touch"))))
     = Panic (runtimeError "index out of range").
Proof. repeat split; reflexivity. Qed.

Lemma find_field_decl (fs : list (StructField * host)) (name : string) :
  find (fun f => Reflect.sf_Name f =? name) (map fst fs)
  = option_map fst (find (fun f => Reflect.sf_Name (fst f) =? name) fs).
Proof.
  induction fs as [|[f x] fs IH]; [reflexivity|]. simpl.
  destruct (Reflect.sf_Name f =? name); [reflexivity|exact IH].
Qed.

Section Resolution.

Variable call : callee -> outcome.

(** What a field of a record resolves to: a field declared with a func
    type is invoked, any other is read with [fv.Interface()], which
    panics on an unexported field, and classified. *)
Definition resolve_field (f : StructField) (x : host) : result Value :=
  let fv := Val (Reflect.sf_Kind f) (negb (Reflect.sf_exported f)) x in
  if Reflect.Kind_eqb (Reflect.sf_Kind f) Reflect.Func
  then invoke call fv
  else x <- RV.Interface fv ;; ValueOf x.

(** X7. Resolution on a struct value: a method of that name first, then a
    field, else Nil.  The second method check of the code adds nothing:
    it looks in the method set the first check has searched. *)
Lemma structValue_PropertyValue_struct (nm : string)
      (fs : list (StructField * host)) (ms : list Method)
      (index : Value) (name : string) :
  Interface index = HString None name ->
  PropertyValue call (structValue (HStruct nm fs ms)) index
  = match Reflect.Type_MethodByName
            (Reflect.TStruct nm (map fst fs) ms) name with
    | Some _ => invoke_method call (RV.ValueOf (HStruct nm fs ms)) name
    | None =>
        match find (fun f => Reflect.sf_Name (fst f) =? name) fs with
        | Some (f, x) => resolve_field f x
        | None => Ok nilValue
        end
    end.
Proof.
  intros I. simpl. unfold structValue_PropertyValue. rewrite I.
  cbn [TypeOf].
  destruct (Reflect.Type_MethodByName _ name) eqn:M; [reflexivity|].
  cbn [Reflect.Type_Kind Reflect.Kind_eqb bind fst snd].
  change (Reflect.Kind_eqb Reflect.Struct Reflect.Ptr) with false.
  cbn [bind fst snd]. unfold Type_FieldByName. cbn [Reflect.struct_fields
    Reflect.underlying bind]. rewrite find_field_decl.
  unfold RV.FieldByName. simpl RV.concrete. cbn [RV.fields_of].
  destruct (find _ fs) as [[f x]|]; cbn [option_map bind].
  - reflexivity.
  - rewrite M. reflexivity.
Qed.

(** X8. Resolution on a pointer to a struct that is not nil: the method
    set of the pointer's type first, then the fields of the struct it
    points to, then the method set of the struct type (its methods on
    the value receiver), else Nil.  Under a pointer type literal the
    first method set holds the methods of both receivers, and the second
    method check finds nothing the first did not.  Under a defined
    pointer type ([type P *T]), whose method set is empty, the second
    check is the one that invokes the methods on the value receiver,
    after the fields. *)
Lemma structValue_PropertyValue_pointer (n : option string) (a : Z)
      (nm : string) (fs : list (StructField * host)) (ms : list Method)
      (index : Value) (name : string) :
  Interface index = HString None name ->
  let T := Reflect.TStruct nm (map fst fs) ms in
  let p := HPtr n T (Some (a, HStruct nm fs ms)) in
  PropertyValue call (structValue p) index
  = match Reflect.Type_MethodByName (named n (Reflect.TPtr T)) name with
    | Some _ => invoke_method call (RV.ValueOf p) name
    | None =>
        match find (fun f => Reflect.sf_Name (fst f) =? name) fs with
        | Some (f, x) => resolve_field f x
        | None =>
            match Reflect.Type_MethodByName T name with
            | Some _ =>
                invoke_method call (RV.ValueOf (HStruct nm fs ms)) name
            | None => Ok nilValue
            end
        end
    end
  /\ (n = None ->
      Reflect.Type_MethodByName (Reflect.TPtr T) name = None ->
      Reflect.Type_MethodByName T name = None).
Proof.
  intros I T p. subst T p. split;
    [|intros _; apply method_set_pointer].
  simpl PropertyValue. unfold structValue_PropertyValue. rewrite I.
  cbn [TypeOf].
  destruct (Reflect.Type_MethodByName (named n (Reflect.TPtr _)) name)
    eqn:M; [reflexivity|].
  rewrite Type_Kind_named. cbn [Reflect.Type_Kind].
  change (Reflect.Kind_eqb Reflect.Ptr Reflect.Ptr) with true.
  replace (Type_Elem (named n (Reflect.TPtr
                                 (Reflect.TStruct nm (map fst fs) ms))))
    with (@Ok Type_ (Reflect.TStruct nm (map fst fs) ms))
    by (destruct n; reflexivity).
  cbn [bind RV.ValueOf KindOf RV.Elem Reflect.Type_Kind fst snd].
  unfold Type_FieldByName. cbn [Reflect.struct_fields
    Reflect.underlying bind]. rewrite find_field_decl.
  unfold RV.FieldByName. simpl RV.concrete. cbn [RV.fields_of].
  destruct (find _ fs) as [[f x]|]; cbn [option_map bind]; reflexivity.
Qed.

(** A method shadows a field of the same name. *)
Lemma structValue_PropertyValue_method_first (nm : string)
      (fs : list (StructField * host)) (ms : list Method)
      (index : Value) (name : string) (m : Method) :
  Interface index = HString None name ->
  Reflect.Type_MethodByName (Reflect.TStruct nm (map fst fs) ms) name
  = Some m ->
  PropertyValue call (structValue (HStruct nm fs ms)) index
  = invoke call
      (Val Reflect.Func false
         (HFunc None (Reflect.m_NumIn m) (Reflect.m_NumOut m)
            (Some (BoundMethod (HStruct nm fs ms) name)))).
Proof.
  intros I M. simpl. unfold structValue_PropertyValue. rewrite I.
  cbn [TypeOf]. rewrite M.
  unfold invoke_method, RV.MethodByName. simpl RV.ValueOf.
  simpl RV.concrete. cbn [TypeOf]. rewrite M. reflexivity.
Qed.

(** X3. On a record, a probe that is no string of the predeclared type
    (a number, Nil, a string of a defined type) names nothing: property
    access gives Nil without looking at the record. *)
Lemma structValue_PropertyValue_not_a_name (b : host) (index : Value) :
  (forall name, Interface index <> HString None name) ->
  PropertyValue call (structValue b) index = Ok nilValue.
Proof.
  intros H. simpl. unfold structValue_PropertyValue.
  destruct (Interface index) as [ | | | | |[n|] s| | | | | | | | | ];
    try reflexivity.
  exfalso. apply (H s). reflexivity.
Qed.

End Resolution.

(** A record with an unexported field. *)
Definition account : host :=
  HStruct "Account"
    [(Reflect.mkField "owner" false Reflect.String, HString None "ann");
     (Reflect.mkField "Balance" true Reflect.Int, HInt None KInt 12)] [].

(** C3, at the input the code fails on.  [account] declares the field
    [owner] and no method of that name, yet resolving [owner] does not
    return the field's classified value: [rt.FieldByName] finds the
    unexported field and [fv.Interface()] panics on it.  The exported
    field [Balance] resolves as claimed. *)
Theorem structValue_unexported_field_panics (call : callee -> outcome) :
  ValueOf account = Ok (structValue account)
  /\ PropertyValue call (structValue account)
       (stringValue (HString None "owner"))
     = Panic (reflectPanic "reflect.Value.Interface: cannot return value obtained from unexported field or method")
  /\ PropertyValue call (structValue account)
       (stringValue (HString None "Balance"))
     = Ok (wrapperValue (HInt None KInt 12)).
Proof. repeat split; reflexivity. Qed.

(** ** The statements at concrete data *)

(** The slice [[]int{10, 20, 30}]. *)
Definition decades : host :=
  HSlice None (Reflect.TBasic Reflect.Int)
         (Some [HInt None KInt 10; HInt None KInt 20; HInt None KInt 30]).

(** An accessor [Name() (string, error)] that succeeds, and one that
    fails. *)
Definition run_Name (c : callee) : outcome :=
  Returns [(Reflect.String, HString None "bob"); (Reflect.Interface, HNil)].

Definition run_Name_failing (c : callee) : outcome :=
  Returns [(Reflect.String, HString None "");
           (Reflect.Interface, HString (Some "errors.errorString") "boom")].



Lemma mapValue_lookup_type_mismatch_witness :
  mapValue_IndexValue ages (wrapperValue (HInt None KInt 5)) = Ok nilValue
  /\ mapValue_Contains ages (wrapperValue (HInt None KInt 5)) = Ok false.
Proof.
  apply (mapValue_lookup_type_mismatch None _ _ _
           (wrapperValue (HInt None KInt 5)) (Reflect.TBasic Reflect.Int));
    [reflexivity | discriminate].
Defined.

Lemma invoke_malformed_member_witness :
  invoke run_Name
    (Val Reflect.Func false (HFunc None 1 1 (Some (Closure "greet"))))
  = Ok nilValue.
Proof. apply invoke_malformed_member. left. apply le_n. Defined.

Lemma invoke_failure_propagates_witness :
  invoke run_Name_failing
    (Val Reflect.Func false (HFunc None 0 2 (Some (Closure "name"))))
  = Panic (panicValue (HString (Some "errors.errorString") "boom")).
Proof.
  apply (invoke_failure_propagates run_Name_failing None 2 (Closure "name")
           (Reflect.String, HString None "") Reflect.Interface
           (HString (Some "errors.errorString") "boom") []);
    [apply le_n | reflexivity | reflexivity].
Defined.

Lemma invoke_first_result_witness :
  invoke run_Name
    (Val Reflect.Func false (HFunc None 0 2 (Some (Closure "name"))))
  = ValueOf (HString None "bob").
Proof.
  apply (invoke_first_result run_Name None 2 (Closure "name")
           Reflect.String (HString None "bob") [(Reflect.Interface, HNil)]);
    [apply le_n | reflexivity | reflexivity].
Defined.

Lemma structValue_PropertyValue_struct_witness :
  PropertyValue run_Name (structValue account)
    (stringValue (HString None "Balance"))
  = Ok (wrapperValue (HInt None KInt 12)).
Proof.
  unfold account.
  rewrite (structValue_PropertyValue_struct run_Name "Account" _ []
             (stringValue (HString None "Balance")) "Balance" eq_refl).
  reflexivity.
Defined.

Lemma structValue_PropertyValue_pointer_witness :
  PropertyValue run_Name
    (structValue
       (HPtr None sample_record_type (Some (4096%Z, sample_record))))
    (stringValue (HString None "Title"))
  = Ok (stringValue (HString None "home")).
Proof.
  etransitivity;
    [ exact (proj1 (structValue_PropertyValue_pointer run_Name None 4096
                      "Page"
                      [(Reflect.mkField "Title" true Reflect.String,
                        HString None "home")] []
                      (stringValue (HString None "Title")) "Title"
                      eq_refl))
    | reflexivity ].
Defined.

Lemma arrayValue_PropertyValue_spec_witness :
  PropertyValue run_Name (arrayValue decades)
    (stringValue (HString None "last"))
  = Ok (wrapperValue (HInt None KInt 30)).
Proof.
  assert (L : (Z.of_nat 3 <= int_max)%Z) by (vm_compute; discriminate).
  rewrite (arrayValue_PropertyValue_spec run_Name decades
             [HInt None KInt 10; HInt None KInt 20; HInt None KInt 30]
             (stringValue (HString None "last")) eq_refl L).
  reflexivity.
Defined.


Lemma mapValue_PropertyValue_unassignable_witness :
  PropertyValue run_Name (mapValue labels)
    (stringValue (HString None "size"))
  = Panic (reflectPanic "reflect.Value.MapIndex: value is not assignable to the key type").
Proof.
  apply (mapValue_PropertyValue_unassignable run_Name None _ _ _
           (stringValue (HString None "size"))
           (Reflect.TBasic Reflect.String));
    reflexivity.
Defined.

(** ** More of value.go: what classification guarantees *)

(** What [ValueOf] wraps. *)
Lemma ValueOf_basis_kind (x : host) (v : Value) :
  holds_Value x = false ->
  ValueOf x = Ok v ->
  Interface v = pointer_end x /\ Value_ok v = true.
Proof.
  induction x as [x IH] using host_pointer_ind.
  intros HV E.
  destruct (pointer_to_non_record x) eqn:NP.
  - destruct x; try discriminate NP. simpl in NP.
    apply negb_true_iff in NP. simpl in HV, E |- *. rewrite NP in HV, E |- *.
    destruct target as [[a t]|]; [|discriminate E].
    apply (IH name e a t eq_refl HV E).
  - assert (NV : is_Value x = false) by (destruct x; auto; discriminate HV).
    destruct x; try discriminate NV; simpl in NP, E;
      try (apply negb_false_iff in NP; rewrite NP in E);
      try (by_kind; simpl in E; inversion E; subst; simpl;
           rewrite ?NP; split; reflexivity).
    inversion E; subst; simpl. rewrite NP. split; [|reflexivity].
    destruct target as [[a t]|]; reflexivity.
Qed.

(** X13. Every Value that [ValueOf] builds from a datum that holds no
    Value wraps the end of the datum's pointer path, and that basis is of
    the kind its implementation works on. *)
Theorem ValueOf_implementation_by_kind (x : host) (v : Value) :
  holds_Value x = false ->
  ValueOf x = Ok v ->
  Interface v = pointer_end x /\ Value_ok v = true.
Proof. exact (ValueOf_basis_kind x v). Qed.

Lemma ValueOf_implementation_by_kind_witness :
  Interface (arrayValue (HSlice None (Reflect.TBasic Reflect.Int) None))
  = pointer_end
      (HPtr None (Reflect.TSlice (Reflect.TBasic Reflect.Int))
         (Some (4096%Z, HSlice None (Reflect.TBasic Reflect.Int) None)))
  /\ Value_ok (arrayValue (HSlice None (Reflect.TBasic Reflect.Int) None))
     = true.
Proof.
  apply (ValueOf_implementation_by_kind
           (HPtr None (Reflect.TSlice (Reflect.TBasic Reflect.Int))
              (Some (4096%Z, HSlice None (Reflect.TBasic Reflect.Int) None))));
    reflexivity.
Defined.

(** ** More of value.go: sequences *)

Lemma Index_seq (b : host) (l : list host) (j : Z) (x : host) :
  seq_elems b = Some l ->
  RV.nth_Z l j = Some x ->
  (e <- RV.Index (RV.ValueOf b) j ;; RV.Interface e) = Ok x.
Proof.
  destruct b; try discriminate; cbn -[RV.nth_Z].
  - intros E; inversion E; subst. intros ->. reflexivity.
  - destruct elems; intros E; inversion E; subst.
    + intros ->. reflexivity.
    + unfold RV.nth_Z. destruct (j <? 0)%Z; [discriminate|].
      destruct (Z.to_nat j); discriminate.
Qed.

Lemma nth_Z_In {A : Type} (l : list A) (j : Z) (x : A) :
  RV.nth_Z l j = Some x -> In x l.
Proof.
  unfold RV.nth_Z. destruct (j <? 0)%Z; [discriminate|].
  apply nth_error_In.
Qed.

Lemma element_returns (b : host) (l : list host) (j : Z) :
  seq_elems b = Some l ->
  Forall (fun x => nil_target x = false) l ->
  (0 <= j < Z.of_nat (List.length l))%Z ->
  exists v, element (RV.ValueOf b) j = Ok v.
Proof.
  intros S F R. destruct (nth_Z_inside l j R) as [x E].
  rewrite (element_seq b l j x S E).
  apply ValueOf_returns_when.
  rewrite Forall_forall in F. apply F. apply (nth_Z_In l j x E).
Qed.

Section SequenceFacts.

Variable call : callee -> outcome.

(** X14. A probe that is not of the predeclared type [int] (another
    integer width such as [int64], a defined integer type, a float, a
    string, Nil) indexes nothing: [IndexValue] gives Nil, whatever the
    sequence holds. *)
Theorem arrayValue_IndexValue_other_probe (b : host) (index : Value) :
  (forall i : Z, Interface index <> HInt None KInt i) ->
  IndexValue call (arrayValue b) index = Ok nilValue.
Proof.
  intros H. simpl. unfold arrayValue_IndexValue.
  destruct (Interface index) as [ | |[n|] k i| | | | | | | | | | | | ];
    try reflexivity.
  destruct k; try reflexivity. exfalso. apply (H i). reflexivity.
Qed.

(** X15. Indexing and property access on a sequence never panic, for any
    probe whatever, as long as each element can be classified (none is or
    leads to a nil pointer to a non-struct type). *)
Theorem arrayValue_lookups_return (b : host) (l : list host)
        (index : Value) :
  seq_elems b = Some l ->
  Forall (fun x => nil_target x = false) l ->
  (Z.of_nat (List.length l) <= int_max)%Z ->
  (exists v, IndexValue call (arrayValue b) index = Ok v)
  /\ (exists v, PropertyValue call (arrayValue b) index = Ok v).
Proof.
  intros S F L. split.
  - simpl. unfold arrayValue_IndexValue.
    destruct (Interface index) as [ | |[n|] k i| | | | | | | | | | | | ];
      try (eexists; reflexivity).
    destruct k; try (eexists; reflexivity).
    rewrite (Len_seq b l S).
    set (n := Z.of_nat (List.length l)).
    set (j := if (i <? 0)%Z then wrap_int (i + n) else i).
    assert (E : (if (i <? 0)%Z then Ok (wrap_int (i + n)) else Ok i)
                = @Ok Z j)
      by (subst j; destruct (i <? 0)%Z; reflexivity).
    cbn [bind]. rewrite E. cbn [bind].
    destruct (Z.leb_spec 0 j); cbn [bind]; [|eexists; reflexivity].
    destruct (Z.ltb_spec j n); [|eexists; reflexivity].
    apply (element_returns b l j S F). subst n. lia.
  - rewrite (arrayValue_PropertyValue_eq call b l index S L).
    destruct (eq_string (Interface index) firstKey).
    { destruct l as [|x r]; [eexists; reflexivity|].
      apply ValueOf_returns_when. inversion F; assumption. }
    destruct (eq_string (Interface index) lastKey).
    { destruct l as [|x r]; [eexists; reflexivity|].
      apply ValueOf_returns_when. rewrite Forall_forall in F.
      apply F.
      destruct (@exists_last _ (x :: r)) as [l' [a E]]; [discriminate|].
      rewrite E. rewrite last_last. apply in_or_app. right. left.
      reflexivity. }
    destruct (eq_string (Interface index) sizeKey); eexists; reflexivity.
Qed.

(** X16. The pseudo-properties agree with indexing: [first] is the
    element at index 0, [last] the element at index -1, on an empty
    sequence too (Nil on both sides), and [size] converts with [Int()]
    to the number of elements. *)
Theorem arrayValue_first_last_size (b : host) (l : list host) :
  seq_elems b = Some l ->
  (Z.of_nat (List.length l) <= int_max)%Z ->
  PropertyValue call (arrayValue b) (stringValue (HString None firstKey))
  = IndexValue call (arrayValue b) (wrapperValue (HInt None KInt 0))
  /\ PropertyValue call (arrayValue b) (stringValue (HString None lastKey))
     = IndexValue call (arrayValue b) (wrapperValue (HInt None KInt (-1)))
  /\ (v <- PropertyValue call (arrayValue b)
             (stringValue (HString None sizeKey)) ;; Int v)
     = Ok (Z.of_nat (List.length l)).
Proof.
  intros S L.
  assert (R0 : (int_min <= 0 <= int_max)%Z)
    by (unfold int_min, int_max; lia).
  assert (R1 : (int_min <= -1 <= int_max)%Z)
    by (unfold int_min, int_max; lia).
  rewrite !(arrayValue_PropertyValue_eq call b l _ S L).
  simpl IndexValue.
  rewrite (arrayValue_IndexValue_spec b l
             (wrapperValue (HInt None KInt 0)) 0 S L eq_refl R0).
  rewrite (arrayValue_IndexValue_spec b l
             (wrapperValue (HInt None KInt (-1))) (-1) S L eq_refl R1).
  split; [destruct l; reflexivity|]. split; [|reflexivity].
  - change (eq_string (Interface (stringValue (HString None lastKey)))
              firstKey) with false.
    change (eq_string (Interface (stringValue (HString None lastKey)))
              lastKey) with true.
    cbv iota. unfold from_end. change (-1 <? 0)%Z with true. cbv iota.
    destruct l as [|x r]; [reflexivity|].
    destruct (@exists_last _ (x :: r)) as [l' [a E]]; [discriminate|].
    rewrite E, last_last. unfold RV.nth_Z.
    rewrite length_app. simpl List.length.
    destruct (Z.ltb_spec (-1 + Z.of_nat (List.length l' + 1)) 0); [lia|].
    replace (Z.to_nat (-1 + Z.of_nat (List.length l' + 1)))
      with (List.length l') by lia.
    rewrite nth_error_app2 by lia. rewrite Nat.sub_diag. reflexivity.
Qed.

End SequenceFacts.

(** ** More of value.go: mappings *)



(** Every type can be assigned to [interface{}]. *)
Lemma assignable_empty_interface (t : Type_) :
  RV.assignable (Reflect.TInterface []) t = true.
Proof. unfold RV.assignable. apply orb_true_r. Qed.


(** No datum has an interface type as its dynamic type. *)
Lemma TypeOf_not_interface (x : host) (t : Type_) :
  TypeOf x = Some t -> Reflect.Type_Kind t <> Reflect.Interface.
Proof.
  intros T. rewrite (TypeOf_Kind x t T).
  destruct x; by_kind; discriminate.
Qed.

Definition found (o : option host) : bool :=
  match o with Some _ => true | None => false end.



Section MapFacts.

Variable call : callee -> outcome.

(** X18. A map whose key type is an interface type, such as
    [map[interface{}]interface{}], cannot be indexed: the probe's dynamic
    type is never that interface type, so [IndexValue] gives Nil and
    [Contains] false for every probe that holds something, present key
    or not.  Property access on [map[interface{}]T] does reach the
    entries: it returns the classified entry under a hashable probe that
    has one. *)
Theorem mapValue_interface_keys (n : option string) (kt et : Type_)
        (entries : option (list (host * host))) (index : Value)
        (t : Type_) :
  Reflect.Type_Kind kt = Reflect.Interface ->
  TypeOf (Interface index) = Some t ->
  mapValue_IndexValue (HMap n kt et entries) index = Ok nilValue
  /\ mapValue_Contains (HMap n kt et entries) index = Ok false
  /\ (forall (m : list (host * host)) (e : host),
         kt = Reflect.TInterface [] ->
         entries = Some m ->
         hashable (Interface index) = true ->
         RV.lookup m (Interface index) = Some e ->
         PropertyValue call (mapValue (HMap n kt et entries)) index
         = ValueOf e).
Proof.
  intros K T.
  assert (D : kt <> t).
  { intros ->. apply (TypeOf_not_interface _ _ T K). }
  unfold mapValue_IndexValue, mapValue_Contains.
  rewrite (Typ_ValueOf _ _ T).
  rewrite (Typ_ValueOf (HMap n kt et entries) _ eq_refl).
  cbn [bind]. rewrite Type_Key_map. cbn [bind].
  rewrite (Type_eqb_neq kt t D).
  split; [reflexivity|]. split; [reflexivity|].
  intros m e -> -> H L. simpl PropertyValue.
  unfold mapValue_PropertyValue, wrapperValue_Interface.
  rewrite (MapIndex_ValueOf n _ et (Some m) _ t T).
  change (RV.retype (Reflect.TInterface []) (Interface index))
    with (Interface index).
  rewrite assignable_empty_interface, H, L. reflexivity.
Qed.

End MapFacts.

(** The map [map[interface{}]interface{}{"title": "home"}], as a YAML
    decoder builds it. *)
Definition front_matter : host :=
  HMap None (Reflect.TInterface []) (Reflect.TInterface [])
       (Some [(HString None "title", HString None "home")]).

Lemma mapValue_interface_keys_witness :
  mapValue_IndexValue front_matter (stringValue (HString None "title"))
  = Ok nilValue
  /\ mapValue_Contains front_matter (stringValue (HString None "title"))
     = Ok false
  /\ PropertyValue run_Name (mapValue front_matter)
       (stringValue (HString None "title"))
     = ValueOf (HString None "home").
Proof.
  destruct (mapValue_interface_keys run_Name None (Reflect.TInterface [])
              (Reflect.TInterface [])
              (Some [(HString None "title", HString None "home")])
              (stringValue (HString None "title"))
              (Reflect.TBasic Reflect.String) eq_refl eq_refl)
    as [A [B C]].
  split; [exact A|]. split; [exact B|].
  apply (C [(HString None "title", HString None "home")]
           (HString None "home")); reflexivity.
Defined.


Lemma mapValue_lookup_nil_probe_witness :
  mapValue_IndexValue ages nilValue
  = Panic (reflectPanic "reflect: call of reflect.Value.Type on zero Value")
  /\ mapValue_Contains ages nilValue
     = Panic (reflectPanic "reflect: call of reflect.Value.Type on zero Value").
Proof.
  apply (mapValue_lookup_nil_probe None _ _ _ nilValue). reflexivity.
Defined.

(** ** More of value.go: records *)

Definition is_some {A : Type} (o : option A) : bool :=
  match o with Some _ => true | None => false end.

Lemma find_existsb {A : Type} (f : A -> bool) (l : list A) :
  is_some (find f l) = existsb f l.
Proof.
  induction l as [|a l IH]; [reflexivity|]. simpl.
  destruct (f a); [reflexivity|exact IH].
Qed.

Lemma find_filter {A : Type} (f g : A -> bool) (l : list A) :
  is_some (find f (filter g l)) = existsb (fun a => g a && f a) l.
Proof.
  induction l as [|a l IH]; [reflexivity|]. simpl.
  destruct (g a); simpl; [destruct (f a); [reflexivity|exact IH]|exact IH].
Qed.

(** The fields and methods a record declares, read off its type: those
    of the struct for a struct value, those of the struct pointed to for
    a pointer. *)
Definition record_decl (b : host)
  : option (list StructField * list Method) :=
  match b with
  | HStruct _ fs ms => Some (map fst fs, ms)
  | HPtr _ (Reflect.TStruct _ fs ms) _ => Some (fs, ms)
  | _ => None
  end.

(** Membership on a record. *)
Lemma structValue_Contains_eq (b : host)
        (fs : list StructField) (ms : list Method)
        (elem : Value) (name : string) :
  record_decl b = Some (fs, ms) ->
  Interface elem = HString None name ->
  structValue_Contains b elem = Ok (declares fs ms name).
Proof.
  intros D I. unfold structValue_Contains, declares. rewrite I.
  destruct b as [ | | | | | | | | |nm fvs ms'|n e t| | | | ];
    try discriminate D.
  - inversion D; subst. cbn [TypeOf Reflect.Type_Kind].
    change (Reflect.Kind_eqb Reflect.Struct Reflect.Ptr) with false.
    cbn [bind]. unfold Type_FieldByName.
    cbn [Reflect.struct_fields Reflect.underlying bind].
    rewrite <- find_existsb.
    destruct (find _ (map fst fvs)); [reflexivity|].
    unfold Reflect.Type_MethodByName. cbn [Reflect.method_set is_some orb].
    rewrite <- (find_filter (fun m => Reflect.m_Name m =? name)
                  (fun m => negb (Reflect.m_ptr_receiver m)) ms).
    destruct (find _ (filter _ ms)); reflexivity.
  - destruct e; try discriminate D. inversion D; subst.
    cbn [TypeOf]. rewrite Type_Kind_named. cbn [Reflect.Type_Kind].
    change (Reflect.Kind_eqb Reflect.Ptr Reflect.Ptr) with true.
    replace (Type_Elem (named n (Reflect.TPtr (Reflect.TStruct name0 fs ms))))
      with (@Ok Type_ (Reflect.TStruct name0 fs ms))
      by (destruct n; reflexivity).
    cbn [bind]. unfold Type_FieldByName.
    cbn [Reflect.struct_fields Reflect.underlying bind].
    rewrite <- find_existsb.
    destruct (find _ fs); [reflexivity|].
    unfold Reflect.Type_MethodByName. cbn [Reflect.method_set is_some orb].
    rewrite <- (find_filter (fun m => Reflect.m_Name m =? name)
                  (fun m => negb (Reflect.m_ptr_receiver m)) ms).
    destruct (find _ (filter _ ms)); reflexivity.
Qed.

(** X20. Membership on a record looks at the struct type only, never at
    the value: a textual name is contained exactly when the struct
    declares a field of that name, exported or not, or a method of that
    name on the value receiver.  For a pointer to a struct, nil or not,
    the struct pointed to is asked, so a method declared on the pointer
    receiver is not contained.  The call never panics. *)
Theorem structValue_Contains_declared (b : host)
        (fs : list StructField) (ms : list Method)
        (elem : Value) (name : string) :
  record_decl b = Some (fs, ms) ->
  Interface elem = HString None name ->
  structValue_Contains b elem = Ok (declares fs ms name).
Proof. exact (structValue_Contains_eq b fs ms elem name). Qed.

(** A record with a field, a method on the value receiver and one on the
    pointer receiver. *)
Definition counter : host :=
  HStruct "Counter"
    [(Reflect.mkField "count" false Reflect.Int, HInt None KInt 3)]
    [Reflect.mkMethod "Incr" true 0 1; Reflect.mkMethod "Value" false 0 1].

Definition counter_type : Type_ :=
  Reflect.TStruct "Counter" [Reflect.mkField "count" false Reflect.Int]
    [Reflect.mkMethod "Incr" true 0 1; Reflect.mkMethod "Value" false 0 1].

Lemma structValue_Contains_declared_witness :
  structValue_Contains (HPtr None counter_type (Some (4096%Z, counter)))
    (stringValue (HString None "count"))
  = Ok true.
Proof.
  apply (structValue_Contains_declared
           (HPtr None counter_type (Some (4096%Z, counter)))
           [Reflect.mkField "count" false Reflect.Int]
           [Reflect.mkMethod "Incr" true 0 1;
            Reflect.mkMethod "Value" false 0 1]
           (stringValue (HString None "count")) "count");
    reflexivity.
Defined.

Section RecordFacts.

Variable call : callee -> outcome.

(** X21. Membership and property access disagree on a method declared
    on the pointer receiver: through a pointer to the struct,
    [PropertyValue] finds and invokes it, while [Contains] answers false
    (when the struct has no field or value-receiver method of the
    name). *)
Theorem pointer_method_invoked_not_contained (a : Z) (nm : string)
        (fs : list (StructField * host)) (ms : list Method)
        (probe : Value) (name : string) (m : Method) :
  let T := Reflect.TStruct nm (map fst fs) ms in
  let p := HPtr None T (Some (a, HStruct nm fs ms)) in
  Interface probe = HString None name ->
  Reflect.Type_MethodByName (Reflect.TPtr T) name = Some m ->
  declares (map fst fs) ms name = false ->
  structValue_Contains p probe = Ok false
  /\ PropertyValue call (structValue p) probe
     = invoke call
         (Val Reflect.Func false
            (HFunc None (Reflect.m_NumIn m) (Reflect.m_NumOut m)
               (Some (BoundMethod p name)))).
Proof.
  intros T p I M D. subst T p. split.
  - rewrite (structValue_Contains_eq
               (HPtr None (Reflect.TStruct nm (map fst fs) ms)
                  (Some (a, HStruct nm fs ms)))
               (map fst fs) ms probe name eq_refl I).
    rewrite D. reflexivity.
  - simpl PropertyValue. unfold structValue_PropertyValue. rewrite I.
    cbn [TypeOf named]. rewrite M.
    unfold invoke_method, RV.MethodByName. simpl RV.ValueOf.
    simpl RV.concrete. cbn [TypeOf named]. rewrite M. reflexivity.
Qed.

(** X22. A nil pointer to a struct is a record like any other: a name
    of the method set of the pointer's type is invoked, bound to the nil
    pointer; a name the struct declares as a field panics, in
    [rv.FieldByName] on the zero Value that [rv.Elem()] gave; a name of
    the struct's own method set that the first check did not find (a
    method on the value receiver, under a defined pointer type) panics
    in [rv.MethodByName] on that zero Value; any other name is Nil. *)
Theorem structValue_PropertyValue_nil_pointer (n : option string)
        (nm : string) (fs : list StructField) (ms : list Method)
        (probe : Value) (name : string) :
  let T := Reflect.TStruct nm fs ms in
  let p := HPtr n T None in
  Interface probe = HString None name ->
  ValueOf p = Ok (structValue p)
  /\ PropertyValue call (structValue p) probe
     = match Reflect.Type_MethodByName (named n (Reflect.TPtr T)) name with
       | Some _ => invoke_method call (RV.ValueOf p) name
       | None =>
           if existsb (fun f => Reflect.sf_Name f =? name) fs
           then Panic (reflectPanic "reflect: call of reflect.Value.FieldByName on a Value that is no struct")
           else
             match Reflect.Type_MethodByName T name with
             | Some _ =>
                 Panic (reflectPanic "reflect: call of reflect.Value.MethodByName on zero Value")
             | None => Ok nilValue
             end
       end.
Proof.
  intros T p I. subst T p. split; [reflexivity|].
  simpl PropertyValue. unfold structValue_PropertyValue. rewrite I.
  cbn [TypeOf].
  destruct (Reflect.Type_MethodByName (named n (Reflect.TPtr _)) name)
    eqn:M; [reflexivity|].
  rewrite Type_Kind_named. cbn [Reflect.Type_Kind].
  change (Reflect.Kind_eqb Reflect.Ptr Reflect.Ptr) with true.
  replace (Type_Elem (named n (Reflect.TPtr (Reflect.TStruct nm fs ms))))
    with (@Ok Type_ (Reflect.TStruct nm fs ms))
    by (destruct n; reflexivity).
  cbn [bind RV.ValueOf KindOf RV.Elem Reflect.Type_Kind fst snd].
  unfold Type_FieldByName. cbn [Reflect.struct_fields
    Reflect.underlying bind]. rewrite <- find_existsb.
  destruct (find _ fs); cbn [is_some bind]; [reflexivity|].
  destruct (Reflect.Type_MethodByName _ name); reflexivity.
Qed.

(** X23. A second result of a type that has no nil (an [int], a [bool],
    a [string], a struct) makes the call panic in [results[1].IsNil()],
    whatever the two results are. *)
Theorem invoke_second_result_without_nil (n : option string)
        (numOut : nat) (c : callee) (r0 : Kind * host) (k1 : Kind)
        (x1 : host) (rest : list (Kind * host)) :
  (numOut <= 2)%nat ->
  call c = Returns (r0 :: (k1, x1) :: rest) ->
  nillable k1 = false ->
  invoke call (Val Reflect.Func false (HFunc n 0 numOut (Some c)))
  = Panic (reflectPanic "reflect: call of reflect.Value.IsNil on a non-nillable Value").
Proof.
  intros O C N. unfold invoke.
  change (RV.IsNil (Val Reflect.Func false (HFunc n 0 numOut (Some c))))
    with (@Ok bool false).
  destruct n; cbn -[Nat.ltb];
    (destruct (Nat.ltb_spec 2 numOut); [lia|]; cbn;
     rewrite C; destruct k1; try discriminate N; reflexivity).
Qed.

End RecordFacts.

(** An accessor [Pair() (int, bool)]. *)
Definition run_Pair (c : callee) : outcome :=
  Returns [(Reflect.Int, HInt None KInt 1); (Reflect.Bool, HBool None true)].

Lemma pointer_method_invoked_not_contained_witness :
  structValue_Contains (HPtr None counter_type (Some (4096%Z, counter)))
    (stringValue (HString None "Incr"))
  = Ok false
  /\ PropertyValue run_Name
       (structValue (HPtr None counter_type (Some (4096%Z, counter))))
       (stringValue (HString None "Incr"))
     = invoke run_Name
         (Val Reflect.Func false
            (HFunc None 0 1
               (Some (BoundMethod (HPtr None counter_type (Some (4096%Z, counter)))
                        "Incr")))).
Proof.
  apply (pointer_method_invoked_not_contained run_Name 4096 "Counter"
           [(Reflect.mkField "count" false Reflect.Int, HInt None KInt 3)]
           [Reflect.mkMethod "Incr" true 0 1;
            Reflect.mkMethod "Value" false 0 1]
           (stringValue (HString None "Incr")) "Incr"
           (Reflect.mkMethod "Incr" true 0 1));
    reflexivity.
Defined.

Lemma structValue_PropertyValue_nil_pointer_witness :
  ValueOf (HPtr None counter_type None)
  = Ok (structValue (HPtr None counter_type None))
  /\ PropertyValue run_Name (structValue (HPtr None counter_type None))
       (stringValue (HString None "count"))
     = Panic (reflectPanic "reflect: call of reflect.Value.FieldByName on a Value that is no struct").
Proof.
  apply (structValue_PropertyValue_nil_pointer run_Name None "Counter"
           [Reflect.mkField "count" false Reflect.Int]
           [Reflect.mkMethod "Incr" true 0 1;
            Reflect.mkMethod "Value" false 0 1]
           (stringValue (HString None "count")) "count").
  reflexivity.
Defined.

Lemma invoke_second_result_without_nil_witness :
  invoke run_Pair
    (Val Reflect.Func false (HFunc None 0 2 (Some (Closure "pair"))))
  = Panic (reflectPanic "reflect: call of reflect.Value.IsNil on a non-nillable Value").
Proof.
  apply (invoke_second_result_without_nil run_Pair None 2 (Closure "pair")
           (Reflect.Int, HInt None KInt 1) Reflect.Bool (HBool None true) []);
    [apply le_n | reflexivity | reflexivity].
Defined.

Lemma structValue_PropertyValue_not_a_name_witness :
  PropertyValue run_Name (structValue account) (wrapperValue (HInt None KInt 0))
  = Ok nilValue.
Proof.
  apply structValue_PropertyValue_not_a_name. intros name H. discriminate H.
Defined.

(** ** More of value.go: membership in sequences and strings *)

Lemma prefix_append (p s : string) :
  String.prefix p s = true <-> exists post, s = (p ++ post)%string.
Proof.
  revert s. induction p as [|a p IH]; intros s.
  - destruct s; simpl; split; eauto.
  - destruct s as [|b s]; simpl.
    + split; [discriminate|]. intros [post H]. discriminate H.
    + destruct (Ascii.ascii_dec a b) as [->|N].
      * rewrite IH. split; intros [post H]; exists post.
        -- rewrite H. reflexivity.
        -- inversion H. reflexivity.
      * split; [discriminate|]. intros [post H]. congruence.
Qed.

(** [strings.Contains] finds exactly the substrings. *)
Lemma strings_Contains_substring (s p : string) :
  strings_Contains s p = true
  <-> exists pre post, s = (pre ++ p ++ post)%string.
Proof.
  induction s as [|c s IH]; simpl.
  - rewrite orb_false_r. split.
    + intros H. destruct p; [|discriminate H].
      exists ""%string, ""%string. reflexivity.
    + intros [pre [post H]]. destruct pre; [|discriminate H].
      destruct p; [reflexivity|discriminate H].
  - rewrite orb_true_iff, IH.
    rewrite (prefix_append p (String c s)). split.
    + intros [[post H]|[pre [post H]]].
      * exists ""%string, post. exact H.
      * exists (String c pre), post. simpl. rewrite H. reflexivity.
    + intros [pre [post H]]. destruct pre as [|d pre].
      * left. exists post. exact H.
      * right. exists pre, post. simpl in H. inversion H. reflexivity.
Qed.

Lemma existsb_loop (Equal : host -> host -> bool) (b : host)
      (l : list host) (e : host) :
  seq_elems b = Some l ->
  forall rest pre : list host,
    l = (pre ++ rest)%list ->
    arrayValue_Contains_loop Equal (RV.ValueOf b) e
      (Z.of_nat (List.length pre)) (List.length rest)
    = Ok (existsb (fun x => Equal x e) rest).
Proof.
  intros S. induction rest as [|x rest IH]; intros pre E; [reflexivity|].
  cbn [List.length arrayValue_Contains_loop existsb].
  assert (N : RV.nth_Z l (Z.of_nat (List.length pre)) = Some x).
  { unfold RV.nth_Z. destruct (Z.ltb_spec (Z.of_nat (List.length pre)) 0);
      [lia|].
    rewrite Nat2Z.id, E, nth_error_app2, Nat.sub_diag by lia. reflexivity. }
  pose proof (Index_seq b l _ x S N) as I.
  destruct (RV.Index (RV.ValueOf b) (Z.of_nat (List.length pre))) as [r|q];
    [|discriminate I].
  cbn [bind] in I |- *. rewrite I. cbn [bind].
  destruct (Equal x e); [reflexivity|]. simpl orb.
  replace (Z.of_nat (List.length pre) + 1)%Z
    with (Z.of_nat (List.length (pre ++ [x])%list))
    by (rewrite length_app; simpl; lia).
  apply IH. rewrite <- app_assoc. exact E.
Qed.

Section Membership.

Variable Equal : host -> host -> bool.
Variable Sprint : host -> string.

(** X24. A sequence contains a probe exactly when one of its elements is
    [Equal] to the probe's datum; elements are compared unwrapped and in
    order, and an empty or nil sequence contains nothing.  The call does
    not panic. *)
Theorem arrayValue_Contains_exists (b : host) (l : list host)
        (elem : Value) :
  seq_elems b = Some l ->
  Contains Equal Sprint (arrayValue b) elem
  = Ok (existsb (fun x => Equal x (Interface elem)) l).
Proof.
  intros S. simpl. unfold arrayValue_Contains.
  rewrite (Len_seq b l S). cbn [bind]. rewrite Nat2Z.id.
  apply (existsb_loop Equal b l (Interface elem) S l []). reflexivity.
Qed.

(** X25. A string of the predeclared type contains a string probe
    exactly when the probe occurs in it as a substring; the empty string
    is contained in every string. *)
Theorem stringValue_Contains_substring (text p : string) (probe : Value) :
  Interface probe = HString None p ->
  exists found : bool,
    Contains Equal Sprint (stringValue (HString None text)) probe = Ok found
    /\ (found = true
        <-> exists pre post, text = (pre ++ p ++ post)%string)
    /\ (p = ""%string -> found = true).
Proof.
  intros I. exists (strings_Contains text p). simpl.
  unfold stringValue_Contains. rewrite I.
  split; [reflexivity|]. split; [apply strings_Contains_substring|].
  intros ->. apply strings_Contains_substring.
  exists ""%string, text. reflexivity.
Qed.

(** X26. A probe that is no string of the predeclared type is printed
    with [fmt.Sprint] and its text is searched for; this includes Nil
    and a string of a defined type. *)
Theorem stringValue_Contains_printed (text : string) (probe : Value) :
  (forall p, Interface probe <> HString None p) ->
  Contains Equal Sprint (stringValue (HString None text)) probe
  = Ok (strings_Contains text (Sprint (Interface probe))).
Proof.
  intros H. simpl. unfold stringValue_Contains.
  destruct (Interface probe) as [ | | | | |[n|] s| | | | | | | | | ];
    try reflexivity.
  exfalso. apply (H s). reflexivity.
Qed.

(** X27. A string of a defined type ([type Slug string]) is classified
    as a string, but its operations assert [v.basis.(string)]: the
    property [size] and every membership test panic, while any other
    property and every index give Nil. *)
Theorem stringValue_defined_type_panics (call : callee -> outcome)
        (name text : string) (probe : Value) :
  let s := HString (Some name) text in
  ValueOf s = Ok (stringValue s)
  /\ Contains Equal Sprint (stringValue s) probe
     = Panic (runtimeError "interface conversion: interface {} is not string")
  /\ PropertyValue call (stringValue s) probe
     = (if eq_string (Interface probe) sizeKey
        then Panic (runtimeError "interface conversion: interface {} is not string")
        else Ok nilValue)
  /\ IndexValue call (stringValue s) probe = Ok nilValue.
Proof. cbv zeta. repeat split. Qed.

End Membership.

(** A comparison and a printer to run the membership tests with: the
    comparison of map keys, and a printer of integers below ten. *)
Definition sample_Equal (a b : host) : bool := host_eqb a b.

Definition sample_Sprint (x : host) : string :=
  match x with
  | HInt _ _ 5 => "5"
  | _ => "<nil>"
  end.

Lemma arrayValue_Contains_exists_witness :
  Contains sample_Equal sample_Sprint (arrayValue decades)
    (wrapperValue (HInt None KInt 20))
  = Ok true.
Proof.
  apply (arrayValue_Contains_exists sample_Equal sample_Sprint decades
           [HInt None KInt 10; HInt None KInt 20; HInt None KInt 30]
           (wrapperValue (HInt None KInt 20)) eq_refl).
Defined.

Lemma stringValue_Contains_substring_witness :
  exists found : bool,
    Contains sample_Equal sample_Sprint
      (stringValue (HString None "hello world"))
      (stringValue (HString None "wor"))
    = Ok found
    /\ (found = true
        <-> exists pre post,
              "hello world" = (pre ++ "wor" ++ post)%string)
    /\ ("wor" = ""%string -> found = true).
Proof.
  apply (stringValue_Contains_substring sample_Equal sample_Sprint
           "hello world" "wor" (stringValue (HString None "wor"))).
  reflexivity.
Defined.

Lemma stringValue_Contains_printed_witness :
  Contains sample_Equal sample_Sprint (stringValue (HString None "hello"))
    (wrapperValue (HInt None KInt 5))
  = Ok false.
Proof.
  apply (stringValue_Contains_printed sample_Equal sample_Sprint "hello"
           (wrapperValue (HInt None KInt 5))).
  intros p H. discriminate H.
Defined.

Lemma arrayValue_IndexValue_other_probe_witness :
  IndexValue run_Name (arrayValue decades) (wrapperValue (HInt None KInt64 0))
  = Ok nilValue.
Proof.
  apply arrayValue_IndexValue_other_probe. intros i H. discriminate H.
Defined.

Lemma arrayValue_lookups_return_witness :
  (exists v, IndexValue run_Name (arrayValue decades)
               (wrapperValue (HInt None KInt 7)) = Ok v)
  /\ (exists v, PropertyValue run_Name (arrayValue decades)
                  (wrapperValue (HInt None KInt 7)) = Ok v).
Proof.
  apply (arrayValue_lookups_return run_Name decades
           [HInt None KInt 10; HInt None KInt 20; HInt None KInt 30]).
  - reflexivity.
  - repeat constructor.
  - vm_compute. discriminate.
Defined.

Lemma arrayValue_first_last_size_witness :
  PropertyValue run_Name (arrayValue decades)
    (stringValue (HString None firstKey))
  = IndexValue run_Name (arrayValue decades) (wrapperValue (HInt None KInt 0))
  /\ PropertyValue run_Name (arrayValue decades)
       (stringValue (HString None lastKey))
     = IndexValue run_Name (arrayValue decades)
         (wrapperValue (HInt None KInt (-1)))
  /\ (v <- PropertyValue run_Name (arrayValue decades)
             (stringValue (HString None sizeKey)) ;; Int v)
     = Ok 3%Z.
Proof.
  apply (arrayValue_first_last_size run_Name decades
           [HInt None KInt 10; HInt None KInt 20; HInt None KInt 30]).
  - reflexivity.
  - vm_compute. discriminate.
Defined.

(** ** More of value.go: values without operations *)

(** The kinds that get an implementation with operations of its own. *)
Definition has_lookups (k : Kind) : bool :=
  match k with
  | Reflect.Array | Reflect.Slice | Reflect.Map | Reflect.Struct
  | Reflect.Ptr => true
  | _ => false
  end.

Section Inert.

Variable call : callee -> outcome.
Variable Equal : host -> host -> bool.
Variable Sprint : host -> string.

(** X10. What [ValueOf] builds from a datum whose pointer path ends in
    neither a sequence, a mapping nor a record cannot be indexed: for
    every probe [IndexValue] gives Nil, for strings too.  When it is no
    string either (Nil, a boolean, a number, a complex, a chan, a func),
    it has no properties and contains nothing: [PropertyValue] gives Nil
    and [Contains] false, and none of the three calls panics. *)
Theorem scalars_are_inert (x : host) (v probe : Value) :
  holds_Value x = false ->
  ValueOf x = Ok v ->
  has_lookups (KindOf (pointer_end x)) = false ->
  IndexValue call v probe = Ok nilValue
  /\ (KindOf (pointer_end x) <> Reflect.String ->
      PropertyValue call v probe = Ok nilValue
      /\ Contains Equal Sprint v probe = Ok false).
Proof.
  intros HV E K.
  destruct (ValueOf_basis_kind x v HV E) as [I O]. rewrite <- I in K.
  destruct v as [b|b|b|b|b| ]; simpl in I, O, K |- *;
    unfold wrapperValue_Interface in *.
  - split; [reflexivity|]. intros _. split; reflexivity.
  - destruct (KindOf b); discriminate.
  - apply Kind_eqb_eq in O. rewrite O in K. discriminate K.
  - split; [reflexivity|]. intros N. apply Kind_eqb_eq in O.
    rewrite <- I in N. simpl in N. contradiction.
  - destruct b; try discriminate O; discriminate K.
  - discriminate O.
Qed.

End Inert.

Lemma scalars_are_inert_witness :
  IndexValue run_Name
    (wrapperValue (HFloat None KFloat64 4615063718147915776))
    (wrapperValue (HInt None KInt 0))
  = Ok nilValue
  /\ (KindOf (pointer_end (HFloat None KFloat64 4615063718147915776))
      <> Reflect.String ->
      PropertyValue run_Name
        (wrapperValue (HFloat None KFloat64 4615063718147915776))
        (wrapperValue (HInt None KInt 0))
      = Ok nilValue
      /\ Contains sample_Equal sample_Sprint
           (wrapperValue (HFloat None KFloat64 4615063718147915776))
           (wrapperValue (HInt None KInt 0))
         = Ok false).
Proof.
  apply (scalars_are_inert run_Name sample_Equal sample_Sprint
           (HFloat None KFloat64 4615063718147915776));
    reflexivity.
Defined.
